(** * MAX30101 optical biosensor driver: acquisition pipeline

    A shallow embedding of the driver of the NIRS muscle-oxygenation
    firmware (MAX30101.h, MAX30101.c, main.c, LED.c) and the properties of
    its acquisition pipeline: FIFO pointer arithmetic, configuration write
    order, the raw and the fused FIFO read, and the conversion of samples
    to nanoamps in IEEE 754 binary32.

    Conventions.
    - [uint8_t], [uint16_t] and [uint32_t] values are integers of [Z];
      every conversion to one of these types is written out as a
      reduction modulo 2^8, 2^16 or 2^32.
    - [float32_t] is IEEE 754 binary32, given by the Standard Library's
      [SpecFloat] at precision 24 and maximal exponent 128, rounding to
      nearest, ties to even.
    - The I2C bus is a state: the slave device and the log of the
      transactions issued so far.  A C function that talks to the bus is a
      computation over that state.
    - A store outside the bounds of its array is undefined behaviour in C;
      the computation stops there in the outcome [Fault], which keeps the
      bus state reached. *)

From Stdlib Require Import ZArith List Lia Bool QArith.
From Stdlib Require Import SpecFloat.
From stdpp Require Import base list.
Import ListNotations.

Open Scope Z_scope.

(** ** Machine integers *)

Definition to_uint8 (z : Z) : Z := z mod 256.
Definition to_uint16 (z : Z) : Z := z mod 65536.
Definition to_uint32 (z : Z) : Z := z mod 4294967296.

Definition is_uint8 (z : Z) : Prop := 0 <= z < 256.
Definition is_uint16 (z : Z) : Prop := 0 <= z < 65536.

(** ** binary32 arithmetic *)

Definition float32_t : Type := spec_float.

Module F32.

Definition prec : Z := 24.
Definition emax : Z := 128.

(** Conversion of an integer to [float32_t], as the cast
  [(float32_t)temp] does: the nearest binary32 value. *)
Definition of_Z (z : Z) : float32_t := binary_normalize prec emax z 0 false.

Definition mul (x y : float32_t) : float32_t := SFmul prec emax x y.
Definition div (x y : float32_t) : float32_t := SFdiv prec emax x y.

(** The binary32 value nearest to the decimal [num / den], both below
  2^24: how a decimal literal with the suffix [f] is read. *)
Definition literal (num den : Z) : float32_t := div (of_Z num) (of_Z den).

(** The rational a finite binary32 value stands for. *)
Definition to_Q (x : float32_t) : option Q :=
match x with
| S754_zero _ => Some 0%Q
| S754_finite s m e =>
    let mag := (if 0 <=? e then inject_Z (Z.pos m * 2 ^ e)
                else Qmake (Z.pos m) (Z.to_pos (2 ^ (- e))))%Z in
    Some (if s then Qopp mag else mag)
| _ => None
end.

(** [x] is finite and stands for exactly the rational [q]. *)
Definition represents (x : float32_t) (q : Q) : Prop :=
match to_Q x with
| Some r => Qeq r q
| None => False
end.

(** The raw IEEE 754 encoding (sign, biased exponent, fraction) of a
  normal or zero binary32 value. *)
Definition bits (x : float32_t) : option Z :=
match x with
| S754_zero s => Some (if s then 2 ^ 31 else 0)
| S754_finite s m e =>
    if (Z.pos m <? 2 ^ 23) then None
    else Some ((if s then 2 ^ 31 else 0) + (e + 150) * 2 ^ 23
               + (Z.pos m - 2 ^ 23))
| _ => None
end.

End F32.

(** ** MAX30101.h: register map and constants *)

Definition SENSOR_ADDR : Z := 0xAE.

Definition INTR_STATUS1 : Z := 0x00.
Definition INTR_STATUS2 : Z := 0x01.
Definition INTR_ENABLE1 : Z := 0x02.
Definition INTR_ENABLE2 : Z := 0x03.
Definition FIFO_WRITPTR : Z := 0x04.
Definition OVRF_COUNTER : Z := 0x05.
Definition FIFO_READPTR : Z := 0x06.
Definition FIFO_DATAREG : Z := 0x07.
Definition FIFO_CONFIG : Z := 0x08.
Definition MODE_CONFIG : Z := 0x09.
Definition SPO2_CONFIG : Z := 0x0A.
Definition LED1_PAMPLI : Z := 0x0C.
Definition LED2_PAMPLI : Z := 0x0D.
Definition LED3_PAMPLI : Z := 0x0E.
Definition LED4_PAMPLI : Z := 0x0F.
Definition MLED_CONFG1 : Z := 0x11.
Definition MLED_CONFG2 : Z := 0x12.
Definition DIE_TEMPINT : Z := 0x1F.
Definition DIE_TEMPFRC : Z := 0x20.
Definition DIE_TEMPCFG : Z := 0x21.

Definition BUFFERBLOCKSIZE : Z := 0x8.

(** [7.81f] *)
Definition MAX30101_CURRENT_LSB_PA : float32_t := F32.literal 781 100.

(** [(MAX30101_CURRENT_LSB_PA / 1000.0f)] *)
Definition MAX30101_CURRENT_LSB_NA : float32_t :=
  F32.div MAX30101_CURRENT_LSB_PA (F32.literal 1000 1).

(** [uint8_t red[2]; uint8_t ir[2]; uint8_t green[2];] each as the pair
    (element 0, element 1), that is (MSB, LSB). *)
Record MAX30101_Sample : Type := mkSample {
  red : Z * Z;
  ir : Z * Z;
  green : Z * Z
}.

Record MAX30101_SampleData : Type := mkSampleData {
  red16 : Z;
  ir16 : Z;
  green16 : Z
}.

Record MAX30101_SampleCurrent : Type := mkSampleCurrent {
  red_nA : float32_t;
  ir_nA : float32_t;
  green_nA : float32_t
}.

(** ** The two-wire bus *)

(** What the master puts on the wire: one entry per call of [I2C1_Write]
    or [I2C1_Read]. *)
Inductive transaction : Type :=
| BusWrite (slave addr data : Z)
| BusRead (slave addr size : Z).

(** The addressed device, as the master sees it: a register write changes
    its state, and each byte clocked out of a register yields a value and
    a new state (the FIFO data port moves on to the next byte). *)
Class I2CSlave (device : Type) : Type := {
  slave_write : Z -> Z -> Z -> device -> device;
  slave_read : Z -> Z -> device -> Z * device
}.

Record bus (device : Type) : Type := mkBus {
  dev : device;
  wire : list transaction
}.
Arguments mkBus {device} _ _.
Arguments dev {device} _.
Arguments wire {device} _.

(** ** Computations over the bus *)

Inductive outcome (device A : Type) : Type :=
| Done (a : A) (b : bus device)
| Fault (b : bus device).
Arguments Done {device A} _ _.
Arguments Fault {device A} _.

Definition M (device A : Type) : Type := bus device -> outcome device A.

Definition ret {device A : Type} (a : A) : M device A := fun b => Done a b.

Definition bind {device A B : Type} (m : M device A) (f : A -> M device B)
  : M device B :=
  fun b => match m b with
           | Done a b' => f a b'
           | Fault b' => Fault b'
           end.

Declare Scope bus_scope.
Delimit Scope bus_scope with bus.
Notation "x <- m ;; k" := (bind m (fun x => k))
  (at level 100, m at next level, right associativity) : bus_scope.
Notation "m ;;; k" := (bind m (fun _ => k))
  (at level 100, right associativity) : bus_scope.

(** The bus state an outcome ends in. *)
Definition final {device A : Type} (o : outcome device A) : bus device :=
  match o with
  | Done _ b => b
  | Fault b => b
  end.

Definition value {device A : Type} (o : outcome device A) : option A :=
  match o with
  | Done a _ => Some a
  | Fault _ => None
  end.

Definition completes {device A : Type} (o : outcome device A) : bool :=
  match o with
  | Done _ _ => true
  | Fault _ => false
  end.

(** [a[i] = f(a[i])] on an array of [length a] elements. *)
Definition poke {device A : Type} (a : list A) (i : nat) (f : A -> A)
  : M device (list A) :=
  fun b => match a !! i with
           | Some x => Done (<[i := f x]> a) b
           | None => Fault b
           end.

(** [for (i = start; i < start + count; i++) acc = body(i, acc);] *)
Fixpoint for_loop {device A : Type} (count : nat) (i : nat)
  (body : nat -> A -> M device A) (acc : A) : M device A :=
  match count with
  | O => ret acc
  | S count' => (acc' <- body i acc ;; for_loop count' (S i) body acc')%bus
  end.

Section Driver.

Context {device : Type} `{!I2CSlave device}.

Local Open Scope bus_scope.

(** *** I2C.h *)

(** The slave delivers [size] bytes, one after the other; each lands in
    a [uint8_t]. *)
Fixpoint clock_in (slave addr : Z) (size : nat) (d : device)
  : list Z * device :=
  match size with
  | O => ([], d)
  | S size' =>
      let '(x, d1) := slave_read slave addr d in
      let '(xs, d2) := clock_in slave addr size' d1 in
      (to_uint8 x :: xs, d2)
  end.

(** Modelled from the spec: I2C.c is not part of the sources at hand,
    only its header.  [I2C1_Write(slave, addr, data)] is one
    transaction [address+W][register][data]: it hands the byte to the
    slave and retains nothing else. *)
Definition I2C1_Write (slave addr data : Z) : M device unit :=
  fun b => Done tt (mkBus (slave_write slave addr (to_uint8 data) (dev b))
                          (wire b ++ [BusWrite slave addr (to_uint8 data)])).

(** Modelled from the spec: I2C.c is not part of the sources at hand,
    only its header.  [I2C1_Read(slave, addr, data, size)] is one
    transaction [address+W][register], repeated START, [address+R] and
    then exactly [size] bytes clocked into [data[0..size-1]]; the
    bytes are returned here as the list [data]. *)
Definition I2C1_Read (slave addr size : Z) : M device (list Z) :=
  fun b =>
    let '(data, d) := clock_in slave addr (Z.to_nat (to_uint8 size)) (dev b) in
    Done data (mkBus d (wire b ++ [BusRead slave addr (to_uint8 size)])).

(** *** MAX30101.c *)

Definition MAX30101_InitSPO2Lite : M device unit :=
  I2C1_Write SENSOR_ADDR FIFO_CONFIG 0x4F ;;;
  I2C1_Write SENSOR_ADDR MODE_CONFIG 0x03 ;;;
  I2C1_Write SENSOR_ADDR SPO2_CONFIG 0x23 ;;;
  I2C1_Write SENSOR_ADDR FIFO_READPTR 0x0 ;;;
  I2C1_Write SENSOR_ADDR FIFO_WRITPTR 0x0 ;;;
  I2C1_Write SENSOR_ADDR LED1_PAMPLI 0x18 ;;;
  I2C1_Write SENSOR_ADDR LED2_PAMPLI 0x18 ;;;
  I2C1_Write SENSOR_ADDR DIE_TEMPCFG 0x01.

Definition MAX30101_InitMuscleOx (ledPower : Z) : M device unit :=
  let ledPower := to_uint8 ledPower in
  I2C1_Write SENSOR_ADDR FIFO_CONFIG 0x4F ;;;
  I2C1_Write SENSOR_ADDR MODE_CONFIG 0x07 ;;;
  I2C1_Write SENSOR_ADDR SPO2_CONFIG 0x26 ;;;
  I2C1_Write SENSOR_ADDR FIFO_READPTR 0x0 ;;;
  I2C1_Write SENSOR_ADDR FIFO_WRITPTR 0x0 ;;;
  I2C1_Write SENSOR_ADDR LED1_PAMPLI ledPower ;;;
  I2C1_Write SENSOR_ADDR LED2_PAMPLI ledPower ;;;
  I2C1_Write SENSOR_ADDR LED3_PAMPLI ledPower ;;;
  I2C1_Write SENSOR_ADDR DIE_TEMPCFG 0x01.

Definition MAX30101_GetNumAvailableSamples : M device Z :=
  data <- I2C1_Read SENSOR_ADDR FIFO_WRITPTR 1 ;;
  let write_ptr := nth 0 data 0 in
  data <- I2C1_Read SENSOR_ADDR FIFO_READPTR 1 ;;
  let read_ptr := nth 0 data 0 in
  let write_ptr := to_uint8 (Z.land write_ptr 0x1F) in
  let read_ptr := to_uint8 (Z.land read_ptr 0x1F) in
  let num_samples :=
    if write_ptr >=? read_ptr
    then to_uint8 (write_ptr - read_ptr)
    else to_uint8 ((32 - read_ptr) + write_ptr) in
  ret num_samples.

(** One pass of the loop of [MAX30101_ReadFIFO]. *)
Definition ReadFIFO_body (i : nat) (samples : list MAX30101_Sample)
  : M device (list MAX30101_Sample) :=
  fifo_data <- I2C1_Read SENSOR_ADDR FIFO_DATAREG 6 ;;
  samples <- poke samples i
    (fun s => mkSample (nth 0 fifo_data 0, snd (red s)) (ir s) (green s)) ;;
  samples <- poke samples i
    (fun s => mkSample (fst (red s), nth 1 fifo_data 0) (ir s) (green s)) ;;
  samples <- poke samples i
    (fun s => mkSample (red s) (nth 2 fifo_data 0, snd (ir s)) (green s)) ;;
  samples <- poke samples i
    (fun s => mkSample (red s) (fst (ir s), nth 3 fifo_data 0) (green s)) ;;
  samples <- poke samples i
    (fun s => mkSample (red s) (ir s) (nth 4 fifo_data 0, snd (green s))) ;;
  poke samples i
    (fun s => mkSample (red s) (ir s) (fst (green s), nth 5 fifo_data 0)).

(** [num_samples] and the counter [i] are [uint8_t]: the loop runs
    [num_samples] mod 2^8 times and [i] stays below 255. *)
Definition MAX30101_ReadFIFO (samples : list MAX30101_Sample)
  (num_samples : Z) : M device (list MAX30101_Sample) :=
  for_loop (Z.to_nat (to_uint8 num_samples)) 0 ReadFIFO_body samples.

Definition MAX30101_ConvertSampleToUint16 (sample_in : MAX30101_Sample)
  : MAX30101_SampleData :=
  mkSampleData
    (to_uint16 (Z.lor (Z.shiftl (to_uint16 (fst (red sample_in))) 8)
                      (to_uint16 (snd (red sample_in)))))
    (to_uint16 (Z.lor (Z.shiftl (to_uint16 (fst (ir sample_in))) 8)
                      (to_uint16 (snd (ir sample_in)))))
    (to_uint16 (Z.lor (Z.shiftl (to_uint16 (fst (green sample_in))) 8)
                      (to_uint16 (snd (green sample_in))))).

Definition MAX30101_ConvertUint16ToCurrent (sample_in : MAX30101_SampleData)
  : MAX30101_SampleCurrent :=
  mkSampleCurrent
    (F32.mul (F32.of_Z (red16 sample_in)) MAX30101_CURRENT_LSB_NA)
    (F32.mul (F32.of_Z (ir16 sample_in)) MAX30101_CURRENT_LSB_NA)
    (F32.mul (F32.of_Z (green16 sample_in)) MAX30101_CURRENT_LSB_NA).

(** One pass of the loop of [MAX30101_ReadFIFO_Current]. *)
Definition ReadFIFO_Current_body (i : nat)
  (samples : list MAX30101_SampleCurrent)
  : M device (list MAX30101_SampleCurrent) :=
  fifo_data <- I2C1_Read SENSOR_ADDR FIFO_DATAREG 6 ;;
  let temp := to_uint16 (Z.lor (Z.shiftl (to_uint16 (nth 0 fifo_data 0)) 8)
                               (nth 1 fifo_data 0)) in
  samples <- poke samples i
    (fun s => mkSampleCurrent
                (F32.mul (F32.of_Z temp) MAX30101_CURRENT_LSB_NA)
                (ir_nA s) (green_nA s)) ;;
  let temp := to_uint16 (Z.lor (Z.shiftl (to_uint16 (nth 2 fifo_data 0)) 8)
                               (nth 3 fifo_data 0)) in
  samples <- poke samples i
    (fun s => mkSampleCurrent (red_nA s)
                (F32.mul (F32.of_Z temp) MAX30101_CURRENT_LSB_NA)
                (green_nA s)) ;;
  let temp := to_uint16 (Z.lor (Z.shiftl (to_uint16 (nth 4 fifo_data 0)) 8)
                               (nth 5 fifo_data 0)) in
  poke samples i
    (fun s => mkSampleCurrent (red_nA s) (ir_nA s)
                (F32.mul (F32.of_Z temp) MAX30101_CURRENT_LSB_NA)).

Definition MAX30101_ReadFIFO_Current (samples : list MAX30101_SampleCurrent)
  (num_samples : Z) : M device (list MAX30101_SampleCurrent) :=
  for_loop (Z.to_nat (to_uint8 num_samples)) 0 ReadFIFO_Current_body samples.

(** *** LED.c and main.c *)

(** The globals the periodic handler touches: the tick counter, the
    8-entry result buffer and the output data register of port B. *)
Record globals : Type := mkGlobals {
  ticks : Z;
  MAX30101_SampleCurrentBuffer : list MAX30101_SampleCurrent;
  GPIOB_ODR : Z
}.

(** [GPIOB->ODR ^= (1<<3);] *)
Definition LED_Toggle (g : globals) : globals :=
  mkGlobals (ticks g) (MAX30101_SampleCurrentBuffer g)
            (to_uint32 (Z.lxor (GPIOB_ODR g) (Z.shiftl 1 3))).

Definition SysTick_Handler (g : globals) : M device globals :=
  let g := mkGlobals (to_uint32 (ticks g + 1))
                     (MAX30101_SampleCurrentBuffer g) (GPIOB_ODR g) in
  available_samples <- MAX30101_GetNumAvailableSamples ;;
  g <- (if available_samples >? 0
        then buf <- MAX30101_ReadFIFO_Current
                      (MAX30101_SampleCurrentBuffer g) available_samples ;;
             ret (mkGlobals (ticks g) buf (GPIOB_ODR g))
        else ret g) ;;
  ret (LED_Toggle g).

(** [MAX30101_InitMuscleOx(0x4B);] the configuration [main] applies
    before it starts the periodic handler. *)
Definition main_init : M device unit := MAX30101_InitMuscleOx 0x4B.

(** *** The two-stage path

    The spec's two-stage pipeline, written with the driver's own
    functions: [MAX30101_ReadFIFO] into a raw buffer, then for each of the
    samples read [MAX30101_ConvertSampleToUint16] followed by
    [MAX30101_ConvertUint16ToCurrent] into the destination. *)
Definition two_stage_body (raw : list MAX30101_Sample) (i : nat)
  (out : list MAX30101_SampleCurrent) : M device (list MAX30101_SampleCurrent) :=
  match raw !! i with
  | Some s =>
      poke out i (fun _ => MAX30101_ConvertUint16ToCurrent
                             (MAX30101_ConvertSampleToUint16 s))
  | None => fun b => Fault b
  end.

Definition two_stage (raw : list MAX30101_Sample)
  (out : list MAX30101_SampleCurrent) (num_samples : Z)
  : M device (list MAX30101_SampleCurrent) :=
  raw' <- MAX30101_ReadFIFO raw num_samples ;;
  for_loop (Z.to_nat (to_uint8 num_samples)) 0 (two_stage_body raw') out.

(** *** Observing a computation *)

(** The transactions a computation adds to the wire when started in [b]. *)
Definition emitted {A : Type} (m : M device A) (b : bus device)
  : list transaction :=
  drop (length (wire b)) (wire (final (m b))).

End Driver.

(** ** Operating profiles *)

Inductive OperatingProfile : Type :=
| DualChannelLowPower
| TripleChannelHighPenetration.

Definition channelCount (p : OperatingProfile) : Z :=
  match p with
  | DualChannelLowPower => 2
  | TripleChannelHighPenetration => 3
  end.

(** The configuration operation of a profile; [drivePower] only matters
    to the triple-channel one. *)
Definition configure {device : Type} `{!I2CSlave device}
  (p : OperatingProfile) (drivePower : Z) : M device unit :=
  match p with
  | DualChannelLowPower => MAX30101_InitSPO2Lite
  | TripleChannelHighPenetration => MAX30101_InitMuscleOx drivePower
  end.

(** The profile the device is in, read off the wire: the last value
    written to the mode register ([0x03] two LEDs, [0x07] three). *)
Definition mode_written (t : transaction) : option Z :=
  match t with
  | BusWrite slave addr data =>
      if (slave =? SENSOR_ADDR) && (addr =? MODE_CONFIG) then Some data else None
  | BusRead _ _ _ => None
  end.

Definition active_profile (log : list transaction) : option OperatingProfile :=
  match last (omap mode_written log) with
  | Some 0x03 => Some DualChannelLowPower
  | Some 0x07 => Some TripleChannelHighPenetration
  | _ => None
  end.

(** ** Reading the configuration log *)

Definition writes_register (addr : Z) (t : transaction) : bool :=
  match t with
  | BusWrite slave a _ => (slave =? SENSOR_ADDR) && (a =? addr)
  | BusRead _ _ _ => false
  end.

Definition is_pointer_reset (t : transaction) : bool :=
  match t with
  | BusWrite slave a data =>
      (slave =? SENSOR_ADDR)
      && ((a =? FIFO_READPTR) || (a =? FIFO_WRITPTR)) && (data =? 0)
  | BusRead _ _ _ => false
  end.

Definition is_fifo_or_mode_setup (t : transaction) : bool :=
  writes_register FIFO_CONFIG t || writes_register MODE_CONFIG t.

Definition is_drive_current_write (t : transaction) : bool :=
  writes_register LED1_PAMPLI t || writes_register LED2_PAMPLI t
  || writes_register LED3_PAMPLI t.

(** Both FIFO pointers are reset in [log], the FIFO configuration and the
    mode are set in it, and every pointer reset comes strictly after every
    write to the FIFO configuration or mode register. *)
Definition resets_follow_setup (log : list transaction) : Prop :=
  (exists i, log !! i = Some (BusWrite SENSOR_ADDR FIFO_READPTR 0))
  /\ (exists i, log !! i = Some (BusWrite SENSOR_ADDR FIFO_WRITPTR 0))
  /\ (exists j v, log !! j = Some (BusWrite SENSOR_ADDR FIFO_CONFIG v))
  /\ (exists j v, log !! j = Some (BusWrite SENSOR_ADDR MODE_CONFIG v))
  /\ (forall (i j : nat) (t u : transaction),
        log !! i = Some t -> is_pointer_reset t = true ->
        log !! j = Some u -> is_fifo_or_mode_setup u = true ->
        (j < i)%nat).

(** ** What one burst of six bytes becomes *)

(** The six stores of one pass of [MAX30101_ReadFIFO]. *)
Definition raw_of_bytes (fifo_data : list Z) : MAX30101_Sample :=
  mkSample (nth 0 fifo_data 0, nth 1 fifo_data 0)
           (nth 2 fifo_data 0, nth 3 fifo_data 0)
           (nth 4 fifo_data 0, nth 5 fifo_data 0).

(** The three stores of one pass of [MAX30101_ReadFIFO_Current]. *)
Definition current_of_bytes (fifo_data : list Z) : MAX30101_SampleCurrent :=
  mkSampleCurrent
    (F32.mul (F32.of_Z (to_uint16 (Z.lor (Z.shiftl (to_uint16 (nth 0 fifo_data 0)) 8)
                                         (nth 1 fifo_data 0))))
             MAX30101_CURRENT_LSB_NA)
    (F32.mul (F32.of_Z (to_uint16 (Z.lor (Z.shiftl (to_uint16 (nth 2 fifo_data 0)) 8)
                                         (nth 3 fifo_data 0))))
             MAX30101_CURRENT_LSB_NA)
    (F32.mul (F32.of_Z (to_uint16 (Z.lor (Z.shiftl (to_uint16 (nth 4 fifo_data 0)) 8)
                                         (nth 5 fifo_data 0))))
             MAX30101_CURRENT_LSB_NA).

(** What the spec promises for a byte pair: the count [(hi << 8) | lo],
    taken as the number [hi * 256 + lo], times 0.00781 in binary32. *)
Definition scaled (hi lo : Z) : float32_t :=
  F32.mul (F32.of_Z (hi * 256 + lo)) (F32.literal 781 100000).

(** [count] is the exact, lossless combination of the byte pair: it is
    the number [hi * 256 + lo], it fits 16 bits, both bytes can be read
    back from it, and its conversion to [float32_t] rounds nothing. *)
Definition exact_count (hi lo count : Z) : Prop :=
  count = hi * 256 + lo
  /\ is_uint16 count
  /\ count / 256 = hi
  /\ count mod 256 = lo
  /\ F32.represents (F32.of_Z count) (inject_Z count).

(** ** A bench device

    A stand-in for the sensor, for running the driver on concrete data: a
    register file (the latest write to an address wins, unwritten
    registers read 0) and the bytes queued at the FIFO data port (an
    exhausted queue reads 0). *)
Record bench : Type := mkBench {
  regs : list (Z * Z);
  fifo : list Z
}.

Fixpoint reg_lookup (addr : Z) (rs : list (Z * Z)) : Z :=
  match rs with
  | [] => 0
  | (a, v) :: rs' => if a =? addr then v else reg_lookup addr rs'
  end.

#[export] Instance bench_slave : I2CSlave bench := {|
  slave_write := fun _ addr data d => mkBench ((addr, data) :: regs d) (fifo d);
  slave_read := fun _ addr d =>
    if addr =? FIFO_DATAREG
    then (hd 0 (fifo d), mkBench (regs d) (tl (fifo d)))
    else (reg_lookup addr (regs d), d)
|}.

(** A sensor with the given FIFO pointer registers and queued bytes, on
    a bus that has carried nothing yet. *)
Definition bench_bus (write_ptr read_ptr : Z) (queued : list Z) : bus bench :=
  mkBus (mkBench [(FIFO_WRITPTR, write_ptr); (FIFO_READPTR, read_ptr)] queued) [].

Definition zero_current : MAX30101_SampleCurrent :=
  mkSampleCurrent (S754_zero false) (S754_zero false) (S754_zero false).

Definition zero_sample : MAX30101_Sample := mkSample (0, 0) (0, 0) (0, 0).

(** The globals as [main] leaves them: the result buffer has
    [MAX30101_SampleCurrentBuffer[8]] zeroed entries. *)
Definition globals0 : globals := mkGlobals 0 (replicate 8 zero_current) 0.

(** ** Loops that store one value per pass *)

(** [fill i xs acc]: the array [acc] after the stores [acc[i] = x0],
    [acc[i+1] = x1], ... of the values [xs]. *)
Fixpoint fill {A : Type} (i : nat) (xs : list A) (acc : list A) : list A :=
  match xs with
  | [] => acc
  | x :: xs' => fill (S i) xs' (<[i := x]> acc)
  end.

(** [count] passes from index [i], each producing a value from the bus
    state: the values in order and the bus state reached. *)
Fixpoint run_steps {device A : Type} (step : nat -> bus device -> A * bus device)
  (count i : nat) (b : bus device) : list A * bus device :=
  match count with
  | O => ([], b)
  | S count' =>
      let '(x, b1) := step i b in
      let '(xs, b2) := run_steps step count' (S i) b1 in
      (x :: xs, b2)
  end.

(** One burst of six bytes from the FIFO data port, as a step. *)
Definition burst {device : Type} `{!I2CSlave device} (b : bus device)
  : list Z * bus device :=
  let '(data, d) := clock_in SENSOR_ADDR FIFO_DATAREG 6 (dev b) in
  (data, mkBus d (wire b ++ [BusRead SENSOR_ADDR FIFO_DATAREG 6])).

(** ** LED.c and the port registers

    The registers are [volatile uint32_t]; every compound assignment
    stores its result reduced modulo 2^32. *)

Definition is_uint32 (z : Z) : Prop := 0 <= z < 4294967296.

(** [GPIOB->ODR |= (1<<3);] *)
Definition LED_On (g : globals) : globals :=
  mkGlobals (ticks g) (MAX30101_SampleCurrentBuffer g)
            (to_uint32 (Z.lor (GPIOB_ODR g) (Z.shiftl 1 3))).

(** [GPIOB->ODR &= ~(1<<3);] the [int] mask is converted to
    [uint32_t] for the conjunction. *)
Definition LED_Off (g : globals) : globals :=
  mkGlobals (ticks g) (MAX30101_SampleCurrentBuffer g)
            (to_uint32 (Z.land (GPIOB_ODR g)
                               (to_uint32 (Z.lnot (Z.shiftl 1 3))))).

(** The two registers [LED_config] touches. *)
Record port_regs : Type := mkPortRegs {
  RCC_AHBENR : Z;
  GPIOB_MODER : Z
}.

(** [RCC_AHBENR_GPIOBEN] comes from the device header
    [stm32f303x8.h], which is not among the sources: the mask is a
    parameter. *)
Definition LED_config (RCC_AHBENR_GPIOBEN : Z) (p : port_regs) : port_regs :=
  let ahbenr := to_uint32 (Z.lor (RCC_AHBENR p) RCC_AHBENR_GPIOBEN) in
  let moder :=
    to_uint32 (Z.land (GPIOB_MODER p)
                 (to_uint32 (Z.lnot (Z.lor (Z.shiftl 3 6) (Z.shiftl 3 8))))) in
  let moder := to_uint32 (Z.lor moder (Z.lor (Z.shiftl 1 6) (Z.shiftl 1 8))) in
  mkPortRegs ahbenr moder.

(** ** More ways to read the wire *)

Definition is_read (t : transaction) : bool :=
  match t with
  | BusRead _ _ _ => true
  | BusWrite _ _ _ => false
  end.

(** The register a write transaction addresses. *)
Definition written_register (t : transaction) : option Z :=
  match t with
  | BusWrite _ addr _ => Some addr
  | BusRead _ _ _ => None
  end.

(** The last value written to the mode register. *)
Definition last_mode (log : list transaction) : option Z :=
  last (omap mode_written log).

(** ** Devices that keep their registers

    Away from the FIFO data port the device behaves as a register file:
    reading a register does not change the device, a register reads back
    the byte last written to it, and a write to one register does not
    show in another. *)
Definition register_file (device : Type) `{!I2CSlave device} : Prop :=
  (forall (a : Z) (d : device),
      a <> FIFO_DATAREG -> (slave_read SENSOR_ADDR a d).2 = d)
  /\ (forall (a v : Z) (d : device),
      a <> FIFO_DATAREG ->
      (slave_read SENSOR_ADDR a (slave_write SENSOR_ADDR a v d)).1 = v)
  /\ (forall (a a' v : Z) (d : device),
      a <> a' -> a <> FIFO_DATAREG ->
      (slave_read SENSOR_ADDR a (slave_write SENSOR_ADDR a' v d)).1
      = (slave_read SENSOR_ADDR a d).1).

(** ** The scale of the conversion *)

(** What [MAX30101_ConvertUint16ToCurrent] computes in each channel. *)
Definition current_of_count (count : Z) : float32_t :=
  F32.mul (F32.of_Z count) MAX30101_CURRENT_LSB_NA.

(** The values [v c], [v (c + 1)], ..., [v (c + fuel - 1)] are all
    defined and each is strictly above the one before it, the first
    above [prev]. *)
Fixpoint climbs (v : Z -> option Q) (fuel : nat) (c : Z) (prev : Q) : bool :=
  match fuel with
  | O => true
  | S fuel' =>
      match v c with
      | Some q => negb (Qle_bool q prev) && climbs v fuel' (c + 1) q
      | None => false
      end
  end.

(** [x] and [y] are finite and [x] is strictly below [y]. *)
Definition finite_lt (x y : float32_t) : Prop :=
  match F32.to_Q x, F32.to_Q y with
  | Some p, Some q => Qlt p q
  | _, _ => False
  end.

(** [x] is finite and lies in the interval from [lo] up to, not
    including, [hi]. *)
Definition finite_within (lo hi : Q) (x : float32_t) : Prop :=
  match F32.to_Q x with
  | Some q => Qle lo q /\ Qlt q hi
  | None => False
  end.

(** * Properties *)

(** ** Machine integers *)

Lemma to_uint8_range (z : Z) : is_uint8 (to_uint8 z).
Proof. unfold is_uint8, to_uint8. apply Z.mod_pos_bound. lia. Qed.

Lemma to_uint8_id (z : Z) : is_uint8 z -> to_uint8 z = z.
Proof. unfold is_uint8, to_uint8. intros Hz. apply Z.mod_small. lia. Qed.

Lemma to_uint16_id (z : Z) : is_uint16 z -> to_uint16 z = z.
Proof. unfold is_uint16, to_uint16. intros Hz. apply Z.mod_small. lia. Qed.

Lemma uint8_is_uint16 (z : Z) : is_uint8 z -> is_uint16 z.
Proof. unfold is_uint8, is_uint16. lia. Qed.

(** [(hi << 8) | lo] on two bytes is the number [hi * 256 + lo]: the
    shifted high byte has its low eight bits clear, so the bitwise or adds
    without carry. *)
Lemma combine_bytes (hi lo : Z) :
  is_uint8 hi -> is_uint8 lo ->
  Z.lor (Z.shiftl hi 8) lo = hi * 256 + lo.
Proof.
  unfold is_uint8. intros Hhi Hlo.
  rewrite Z.shiftl_mul_pow2 by lia.
  change (2 ^ 8) with 256.
  rewrite <- Z.add_nocarry_lor; [reflexivity|].
  apply Z.bits_inj'. intros n Hn.
  rewrite Z.land_spec, Z.bits_0.
  destruct (Z_lt_dec n 8) as [Hlt|Hge].
  - replace (hi * 256) with (hi * 2 ^ 8) by reflexivity.
    rewrite Z.mul_pow2_bits_low by lia. reflexivity.
  - rewrite (Z.bits_above_log2 lo n); [apply andb_false_r|lia|].
    destruct (Z.eq_dec lo 0) as [->|Hnz]; [simpl; lia|].
    assert (Z.log2 lo < 8); [|lia].
    apply Z.log2_lt_pow2; lia.
Qed.

Lemma combine_bytes_range (hi lo : Z) :
  is_uint8 hi -> is_uint8 lo -> is_uint16 (hi * 256 + lo).
Proof. unfold is_uint8, is_uint16. lia. Qed.

Lemma nth_uint8 (data : list Z) (k : nat) :
  Forall is_uint8 data -> is_uint8 (nth k data 0).
Proof.
  intros Hall. revert k.
  induction Hall as [|x xs Hx _ IH]; intros [|k]; simpl; auto;
    unfold is_uint8; lia.
Qed.

(** ** Arrays filled from an index *)

Lemma length_fill {A : Type} (xs : list A) :
  forall (i : nat) (acc : list A), length (fill i xs acc) = length acc.
Proof.
  induction xs as [|x xs IH]; intros i acc; simpl; [reflexivity|].
  rewrite IH. apply length_insert.
Qed.

Lemma lookup_fill_below {A : Type} (xs : list A) :
  forall (i j : nat) (acc : list A),
    (j < i)%nat -> fill i xs acc !! j = acc !! j.
Proof.
  induction xs as [|x xs IH]; intros i j acc Hj; simpl; [reflexivity|].
  rewrite IH by lia. apply list_lookup_insert_ne. lia.
Qed.

Lemma lookup_fill_above {A : Type} (xs : list A) :
  forall (i j : nat) (acc : list A),
    (i + length xs <= j)%nat -> fill i xs acc !! j = acc !! j.
Proof.
  induction xs as [|x xs IH]; intros i j acc Hj; simpl in *; [reflexivity|].
  rewrite IH by lia. apply list_lookup_insert_ne. lia.
Qed.

Lemma lookup_fill_within {A : Type} (xs : list A) :
  forall (i k : nat) (acc : list A),
    (i + length xs <= length acc)%nat -> (k < length xs)%nat ->
    fill i xs acc !! (i + k)%nat = xs !! k.
Proof.
  induction xs as [|x xs IH]; intros i k acc Hlen Hk; simpl in *; [lia|].
  destruct k as [|k].
  - rewrite lookup_fill_below by lia.
    rewrite Nat.add_0_r. apply list_lookup_insert_eq. lia.
  - replace (i + S k)%nat with (S i + k)%nat by lia.
    apply IH; [rewrite length_insert|]; lia.
Qed.

Lemma take_fill {A : Type} (xs acc : list A) :
  (length xs <= length acc)%nat -> take (length xs) (fill 0 xs acc) = xs.
Proof.
  intros Hlen. apply list_eq. intros k.
  destruct (decide (k < length xs)%nat) as [Hk|Hk].
  - rewrite lookup_take_lt by lia.
    apply (lookup_fill_within xs 0 k acc); lia.
  - rewrite lookup_take_ge by lia.
    symmetry. apply lookup_ge_None. lia.
Qed.

(** ** Loops *)

Section Loops.

Context {device A : Type}.
Variable step : nat -> bus device -> A * bus device.
Variable body : nat -> list A -> M device (list A).
Variable bound : nat.

(** Below [bound], a pass takes its value from the bus and stores it at
    [i], or stops at the store when [i] is outside the array. *)
Hypothesis body_stores : forall (i : nat) (acc : list A) (b : bus device),
  (i < bound)%nat ->
  body i acc b =
    if decide (i < length acc)%nat
    then Done (<[i := (step i b).1]> acc) (step i b).2
    else Fault (step i b).2.

Lemma for_loop_done :
  forall (count i : nat) (acc : list A) (b : bus device),
    (i + count <= bound)%nat ->
    (i + count <= length acc)%nat ->
    for_loop count i body acc b =
      Done (fill i (run_steps step count i b).1 acc)
           (run_steps step count i b).2.
Proof.
  induction count as [|count IH]; intros i acc b Hb Hlen; simpl.
  - reflexivity.
  - unfold bind. rewrite body_stores by lia.
    destruct (decide (i < length acc)%nat) as [_|Hn]; [|lia].
    destruct (step i b) as [x b1] eqn:Hstep. simpl.
    rewrite IH by (rewrite ?length_insert; lia).
    destruct (run_steps step count (S i) b1) as [xs b2]. reflexivity.
Qed.

Lemma run_steps_S_snd (count i : nat) (b : bus device) :
  (run_steps step (S count) i b).2 =
    (run_steps step count (S i) (step i b).2).2.
Proof.
  simpl. destruct (step i b) as [x b1]. simpl.
  destruct (run_steps step count (S i) b1) as [xs b2]. reflexivity.
Qed.

Lemma for_loop_fault :
  forall (count i : nat) (acc : list A) (b : bus device),
    (i + count <= bound)%nat ->
    (i <= length acc)%nat -> (length acc < i + count)%nat ->
    for_loop count i body acc b =
      Fault (run_steps step (S (length acc - i)) i b).2.
Proof.
  induction count as [|count IH]; intros i acc b Hb Hi Hlen; [lia|].
  cbn [for_loop]. unfold bind. rewrite body_stores by lia.
  rewrite run_steps_S_snd.
  destruct (decide (i < length acc)%nat) as [Hlt|Hge].
  - rewrite IH by (rewrite ?length_insert; lia).
    rewrite length_insert.
    replace (length acc - i)%nat with (S (length acc - S i)) by lia.
    reflexivity.
  - replace (length acc - i)%nat with 0%nat by lia. reflexivity.
Qed.

End Loops.

Lemma length_run_steps {device A : Type}
  (step : nat -> bus device -> A * bus device) :
  forall (count i : nat) (b : bus device),
    length (run_steps step count i b).1 = count.
Proof.
  induction count as [|count IH]; intros i b; simpl; [reflexivity|].
  destruct (step i b) as [x b1].
  specialize (IH (S i) b1).
  destruct (run_steps step count (S i) b1) as [xs b2]. simpl in *. lia.
Qed.

(** Steps that post-process the value of another step produce the mapped
    values and leave the bus in the same state. *)
Lemma run_steps_map {device A B : Type}
  (step : nat -> bus device -> A * bus device) (f : A -> B) :
  forall (count i : nat) (b : bus device),
    run_steps (fun k b' => (f (step k b').1, (step k b').2)) count i b =
      (map f (run_steps step count i b).1, (run_steps step count i b).2).
Proof.
  induction count as [|count IH]; intros i b; simpl; [reflexivity|].
  destruct (step i b) as [x b1]. simpl. rewrite IH.
  destruct (run_steps step count (S i) b1) as [xs b2]. reflexivity.
Qed.

(** Steps that only look a value up in an array read a slice of it. *)
Lemma run_steps_lookup {device A B : Type} (f : A -> B) (d : A) (src : list A) :
  forall (count i : nat) (b : bus device),
    (i + count <= length src)%nat ->
    run_steps (fun k b' => (f (default d (src !! k)), b')) count i b =
      (map f (take count (drop i src)), b).
Proof.
  induction count as [|count IH]; intros i b Hlen; simpl; [reflexivity|].
  rewrite IH by lia.
  destruct (lookup_lt_is_Some_2 src i) as [x Hx]; [lia|].
  rewrite Hx. simpl.
  rewrite (drop_S src x i Hx). reflexivity.
Qed.

(** ** The bus *)

Section BusFacts.

Context {device : Type} `{!I2CSlave device}.

Lemma clock_in_length (slave addr : Z) :
  forall (size : nat) (d : device),
    length (clock_in slave addr size d).1 = size.
Proof.
  induction size as [|size IH]; intros d; simpl; [reflexivity|].
  destruct (slave_read slave addr d) as [x d1].
  specialize (IH d1).
  destruct (clock_in slave addr size d1) as [xs d2]. simpl in *. lia.
Qed.

Lemma clock_in_uint8 (slave addr : Z) :
  forall (size : nat) (d : device),
    Forall is_uint8 (clock_in slave addr size d).1.
Proof.
  induction size as [|size IH]; intros d; simpl; [constructor|].
  destruct (slave_read slave addr d) as [x d1].
  specialize (IH d1).
  destruct (clock_in slave addr size d1) as [xs d2]. simpl in *.
  constructor; [apply to_uint8_range|assumption].
Qed.

Lemma I2C1_Read_burst (b : bus device) :
  I2C1_Read SENSOR_ADDR FIFO_DATAREG 6 b = Done (burst b).1 (burst b).2.
Proof.
  unfold I2C1_Read, burst.
  change (Z.to_nat (to_uint8 6)) with 6%nat.
  change (to_uint8 6) with 6.
  destruct (clock_in SENSOR_ADDR FIFO_DATAREG 6 (dev b)) as [data d].
  reflexivity.
Qed.

Lemma burst_uint8 (b : bus device) : Forall is_uint8 (burst b).1.
Proof.
  unfold burst.
  pose proof (clock_in_uint8 SENSOR_ADDR FIFO_DATAREG 6 (dev b)) as Hall.
  destruct (clock_in SENSOR_ADDR FIFO_DATAREG 6 (dev b)) as [data d].
  exact Hall.
Qed.

Lemma burst_wire (b : bus device) :
  wire (burst b).2 = wire b ++ [BusRead SENSOR_ADDR FIFO_DATAREG 6].
Proof.
  unfold burst.
  destruct (clock_in SENSOR_ADDR FIFO_DATAREG 6 (dev b)) as [data d].
  reflexivity.
Qed.

(** [count] bursts put [count] six-byte data-port reads on the wire;
    every byte they deliver is a [uint8_t]. *)
Lemma bursts_wire :
  forall (count i : nat) (b : bus device),
    wire (run_steps (fun _ => burst) count i b).2 =
      wire b ++ replicate count (BusRead SENSOR_ADDR FIFO_DATAREG 6).
Proof.
  induction count as [|count IH]; intros i b; simpl.
  - rewrite app_nil_r. reflexivity.
  - destruct (burst b) as [data b1] eqn:Hb.
    specialize (IH (S i) b1).
    destruct (run_steps (fun _ => burst) count (S i) b1) as [xs b2].
    simpl in *. rewrite IH.
    pose proof (burst_wire b) as Hw. rewrite Hb in Hw. simpl in Hw.
    rewrite Hw, <- app_assoc. reflexivity.
Qed.

Lemma bursts_uint8 :
  forall (count i : nat) (b : bus device),
    Forall (Forall is_uint8) (run_steps (fun _ => burst) count i b).1.
Proof.
  induction count as [|count IH]; intros i b; simpl; [constructor|].
  destruct (burst b) as [data b1] eqn:Hb.
  specialize (IH (S i) b1).
  destruct (run_steps (fun _ => burst) count (S i) b1) as [xs b2].
  simpl in *. constructor; [|assumption].
  pose proof (burst_uint8 b) as Hu. rewrite Hb in Hu. exact Hu.
Qed.

End BusFacts.

(** ** One pass of each FIFO loop *)

Section Passes.

Context {device : Type} `{!I2CSlave device}.

Lemma poke_inside {A : Type} (acc : list A) (i : nat) (x : A) (f : A -> A)
  (b : bus device) :
  acc !! i = Some x -> poke acc i f b = Done (<[i := f x]> acc) b.
Proof. intros Hx. unfold poke. rewrite Hx. reflexivity. Qed.

Lemma poke_again {A : Type} (acc : list A) (i : nat) (x : A) (f : A -> A)
  (b : bus device) :
  (i < length acc)%nat ->
  poke (<[i := x]> acc) i f b = Done (<[i := f x]> acc) b.
Proof.
  intros Hi.
  rewrite (poke_inside _ i x) by (apply list_lookup_insert_eq; exact Hi).
  rewrite list_insert_insert_eq. reflexivity.
Qed.

Lemma poke_outside {A : Type} (acc : list A) (i : nat) (f : A -> A)
  (b : bus device) :
  ~ (i < length acc)%nat -> poke acc i f b = Fault b.
Proof.
  intros Hi. unfold poke.
  rewrite (proj2 (lookup_ge_None acc i)) by lia. reflexivity.
Qed.

Lemma ReadFIFO_body_stores (i : nat) (samples : list MAX30101_Sample)
  (b : bus device) :
  ReadFIFO_body i samples b =
    if decide (i < length samples)%nat
    then Done (<[i := raw_of_bytes (burst b).1]> samples) (burst b).2
    else Fault (burst b).2.
Proof.
  unfold ReadFIFO_body, bind. rewrite I2C1_Read_burst.
  destruct (decide (i < length samples)%nat) as [Hi|Hi].
  - destruct (lookup_lt_is_Some_2 samples i Hi) as [s Hs].
    rewrite (poke_inside samples i s) by exact Hs.
    repeat rewrite poke_again by exact Hi.
    reflexivity.
  - rewrite poke_outside by exact Hi. reflexivity.
Qed.

Lemma ReadFIFO_Current_body_stores (i : nat)
  (samples : list MAX30101_SampleCurrent) (b : bus device) :
  ReadFIFO_Current_body i samples b =
    if decide (i < length samples)%nat
    then Done (<[i := current_of_bytes (burst b).1]> samples) (burst b).2
    else Fault (burst b).2.
Proof.
  unfold ReadFIFO_Current_body, bind. rewrite I2C1_Read_burst.
  destruct (decide (i < length samples)%nat) as [Hi|Hi].
  - destruct (lookup_lt_is_Some_2 samples i Hi) as [s Hs].
    rewrite (poke_inside samples i s) by exact Hs.
    repeat rewrite poke_again by exact Hi.
    reflexivity.
  - rewrite poke_outside by exact Hi. reflexivity.
Qed.

Lemma two_stage_body_stores (raw : list MAX30101_Sample) (i : nat)
  (out : list MAX30101_SampleCurrent) (b : bus device) :
  (i < length raw)%nat ->
  two_stage_body raw i out b =
    if decide (i < length out)%nat
    then Done (<[i := MAX30101_ConvertUint16ToCurrent
                        (MAX30101_ConvertSampleToUint16
                           (default zero_sample (raw !! i)))]> out) b
    else Fault b.
Proof.
  intros Hraw. unfold two_stage_body.
  destruct (lookup_lt_is_Some_2 raw i Hraw) as [s Hs]. rewrite Hs. simpl.
  destruct (decide (i < length out)%nat) as [Hi|Hi].
  - destruct (lookup_lt_is_Some_2 out i Hi) as [c Hc].
    rewrite (poke_inside out i c) by exact Hc. reflexivity.
  - rewrite poke_outside by exact Hi. reflexivity.
Qed.

End Passes.

(** ** The FIFO reads as a whole *)

Section Reads.

Context {device : Type} `{!I2CSlave device}.

Lemma ReadFIFO_done (samples : list MAX30101_Sample) (n : Z) (b : bus device) :
  (Z.to_nat (to_uint8 n) <= length samples)%nat ->
  MAX30101_ReadFIFO samples n b =
    Done (fill 0 (map raw_of_bytes
                    (run_steps (fun _ => burst) (Z.to_nat (to_uint8 n)) 0 b).1)
               samples)
         (run_steps (fun _ => burst) (Z.to_nat (to_uint8 n)) 0 b).2.
Proof.
  intros Hlen. unfold MAX30101_ReadFIFO.
  rewrite (for_loop_done (fun _ b' => (raw_of_bytes (burst b').1, (burst b').2))
             ReadFIFO_body (Z.to_nat (to_uint8 n)));
    [|intros; apply ReadFIFO_body_stores|lia|lia].
  rewrite (run_steps_map (fun _ => burst) raw_of_bytes). reflexivity.
Qed.

Lemma ReadFIFO_fault (samples : list MAX30101_Sample) (n : Z) (b : bus device) :
  (length samples < Z.to_nat (to_uint8 n))%nat ->
  MAX30101_ReadFIFO samples n b =
    Fault (run_steps (fun _ => burst) (S (length samples)) 0 b).2.
Proof.
  intros Hlen. unfold MAX30101_ReadFIFO.
  rewrite (for_loop_fault (fun _ b' => (raw_of_bytes (burst b').1, (burst b').2))
             ReadFIFO_body (Z.to_nat (to_uint8 n)));
    [|intros; apply ReadFIFO_body_stores|lia|lia|lia].
  rewrite Nat.sub_0_r.
  rewrite (run_steps_map (fun _ => burst) raw_of_bytes). reflexivity.
Qed.

Lemma ReadFIFO_Current_done (samples : list MAX30101_SampleCurrent) (n : Z)
  (b : bus device) :
  (Z.to_nat (to_uint8 n) <= length samples)%nat ->
  MAX30101_ReadFIFO_Current samples n b =
    Done (fill 0 (map current_of_bytes
                    (run_steps (fun _ => burst) (Z.to_nat (to_uint8 n)) 0 b).1)
               samples)
         (run_steps (fun _ => burst) (Z.to_nat (to_uint8 n)) 0 b).2.
Proof.
  intros Hlen. unfold MAX30101_ReadFIFO_Current.
  rewrite (for_loop_done
             (fun _ b' => (current_of_bytes (burst b').1, (burst b').2))
             ReadFIFO_Current_body (Z.to_nat (to_uint8 n)));
    [|intros; apply ReadFIFO_Current_body_stores|lia|lia].
  rewrite (run_steps_map (fun _ => burst) current_of_bytes). reflexivity.
Qed.

Lemma ReadFIFO_Current_fault (samples : list MAX30101_SampleCurrent) (n : Z)
  (b : bus device) :
  (length samples < Z.to_nat (to_uint8 n))%nat ->
  MAX30101_ReadFIFO_Current samples n b =
    Fault (run_steps (fun _ => burst) (S (length samples)) 0 b).2.
Proof.
  intros Hlen. unfold MAX30101_ReadFIFO_Current.
  rewrite (for_loop_fault
             (fun _ b' => (current_of_bytes (burst b').1, (burst b').2))
             ReadFIFO_Current_body (Z.to_nat (to_uint8 n)));
    [|intros; apply ReadFIFO_Current_body_stores|lia|lia|lia].
  rewrite Nat.sub_0_r.
  rewrite (run_steps_map (fun _ => burst) current_of_bytes). reflexivity.
Qed.

Lemma emitted_extends {A : Type} (m : M device A) (b : bus device)
  (log : list transaction) :
  wire (final (m b)) = wire b ++ log -> emitted m b = log.
Proof.
  intros Hw. unfold emitted. rewrite Hw. apply drop_app_length.
Qed.

(** What either read puts on the wire: one six-byte data-port burst per
    pass, and one pass more than the destination holds when asked for
    more than that. *)
Lemma emitted_ReadFIFO (samples : list MAX30101_Sample) (n : Z) (b : bus device) :
  emitted (MAX30101_ReadFIFO samples n) b =
    replicate (Nat.min (Z.to_nat (to_uint8 n)) (S (length samples)))
              (BusRead SENSOR_ADDR FIFO_DATAREG 6).
Proof.
  apply emitted_extends.
  destruct (decide (Z.to_nat (to_uint8 n) <= length samples)%nat) as [Hle|Hgt].
  - rewrite ReadFIFO_done by exact Hle. cbn [final].
    rewrite bursts_wire. do 2 f_equal. lia.
  - rewrite ReadFIFO_fault by lia. cbn [final].
    rewrite bursts_wire. do 2 f_equal. lia.
Qed.

Lemma emitted_ReadFIFO_Current (samples : list MAX30101_SampleCurrent) (n : Z)
  (b : bus device) :
  emitted (MAX30101_ReadFIFO_Current samples n) b =
    replicate (Nat.min (Z.to_nat (to_uint8 n)) (S (length samples)))
              (BusRead SENSOR_ADDR FIFO_DATAREG 6).
Proof.
  apply emitted_extends.
  destruct (decide (Z.to_nat (to_uint8 n) <= length samples)%nat) as [Hle|Hgt].
  - rewrite ReadFIFO_Current_done by exact Hle. cbn [final].
    rewrite bursts_wire. do 2 f_equal. lia.
  - rewrite ReadFIFO_Current_fault by lia. cbn [final].
    rewrite bursts_wire. do 2 f_equal. lia.
Qed.

(** On bytes off the bus the fused conversion and the two conversion
    functions in sequence compute the same three values. *)
Lemma current_of_bytes_two_stage (fifo_data : list Z) :
  Forall is_uint8 fifo_data ->
  MAX30101_ConvertUint16ToCurrent
    (MAX30101_ConvertSampleToUint16 (raw_of_bytes fifo_data)) =
  current_of_bytes fifo_data.
Proof.
  intros Hall.
  unfold MAX30101_ConvertUint16ToCurrent, MAX30101_ConvertSampleToUint16,
    raw_of_bytes, current_of_bytes. simpl.
  rewrite !(to_uint16_id (nth _ fifo_data 0))
    by (apply uint8_is_uint16, nth_uint8, Hall).
  reflexivity.
Qed.

End Reads.

(** ** The acquisition pipeline *)

Section Pipeline.

Context {device : Type} `{!I2CSlave device}.

(** C3.  The fused read [MAX30101_ReadFIFO_Current] and the two-stage
    path ([MAX30101_ReadFIFO], then [MAX30101_ConvertSampleToUint16] and
    [MAX30101_ConvertUint16ToCurrent] on each sample read) have the same
    outcome from the same bus state, for every sample count and every
    sequence of bytes the device delivers: the same destination contents,
    value for value in binary32, and the same bus state and wire log. *)
Theorem fused_equals_two_stage (raw : list MAX30101_Sample)
  (out : list MAX30101_SampleCurrent) (num_samples : Z) (b : bus device) :
  length raw = length out ->
  two_stage raw out num_samples b =
    MAX30101_ReadFIFO_Current out num_samples b.
Proof.
  intros Hsame. unfold two_stage, bind.
  set (k := Z.to_nat (to_uint8 num_samples)).
  destruct (decide (k <= length raw)%nat) as [Hle|Hgt].
  - rewrite ReadFIFO_done by exact Hle. fold k.
    rewrite ReadFIFO_Current_done by (fold k; lia). fold k.
    pose proof (length_run_steps (fun _ => burst) k 0 b) as Hk.
    pose proof (bursts_uint8 k 0 b) as Hbytes.
    destruct (run_steps (fun _ => burst) k 0 b) as [datas b'].
    cbn [fst snd] in *.
    set (raw' := fill 0 (map raw_of_bytes datas) raw).
    assert (Hraw' : length raw' = length raw) by apply length_fill.
    rewrite (for_loop_done
               (fun i b0 => (MAX30101_ConvertUint16ToCurrent
                               (MAX30101_ConvertSampleToUint16
                                  (default zero_sample (raw' !! i))), b0))
               (two_stage_body raw') k);
      [|intros; apply two_stage_body_stores; lia|lia|lia].
    rewrite (run_steps_lookup
               (fun s => MAX30101_ConvertUint16ToCurrent
                           (MAX30101_ConvertSampleToUint16 s))
               zero_sample raw' k 0 b') by lia.
    cbn [fst snd]. rewrite drop_0.
    replace (take k raw') with (map raw_of_bytes datas).
    + rewrite map_map. do 2 f_equal.
      apply map_ext_Forall.
      eapply Forall_impl; [exact Hbytes|].
      intros data Hdata. apply current_of_bytes_two_stage, Hdata.
    + symmetry. subst raw'.
      replace k with (length (map raw_of_bytes datas))
        by (rewrite length_map; exact Hk).
      apply take_fill. rewrite length_map. lia.
  - rewrite ReadFIFO_fault by (fold k; lia).
    rewrite ReadFIFO_Current_fault by (fold k; lia).
    rewrite Hsame. reflexivity.
Qed.

(** C8.  [MAX30101_ReadFIFO_Current] with [num_samples = 0] returns with
    the destination as it was, no entry written, and with the bus as it
    was: it puts no transaction on the wire and the device is not
    touched. *)
Theorem ReadFIFO_Current_zero (samples : list MAX30101_SampleCurrent)
  (b : bus device) :
  MAX30101_ReadFIFO_Current samples 0 b = Done samples b
  /\ emitted (MAX30101_ReadFIFO_Current samples 0) b = [].
Proof.
  split; [reflexivity|].
  unfold emitted. simpl. apply drop_all.
Qed.

(** C10.  For a sample count [n] with [0 <= n] no larger than the length
    of the destination, [MAX30101_ReadFIFO] and
    [MAX30101_ReadFIFO_Current] return, the destination keeps its length,
    and every entry at an index [j >= n] is what it was before the
    call. *)
Theorem reads_keep_entries_from_n (raw : list MAX30101_Sample)
  (cur : list MAX30101_SampleCurrent) (n : Z) (b : bus device) :
  0 <= n -> n <= Z.of_nat (length raw) -> n <= Z.of_nat (length cur) ->
  (exists raw' b1,
      MAX30101_ReadFIFO raw n b = Done raw' b1
      /\ length raw' = length raw
      /\ forall j : nat, n <= Z.of_nat j -> raw' !! j = raw !! j)
  /\ (exists cur' b2,
      MAX30101_ReadFIFO_Current cur n b = Done cur' b2
      /\ length cur' = length cur
      /\ forall j : nat, n <= Z.of_nat j -> cur' !! j = cur !! j).
Proof.
  intros Hn Hraw Hcur.
  assert (Hk : (Z.to_nat (to_uint8 n) <= Z.to_nat n)%nat).
  { unfold to_uint8. apply Z2Nat.inj_le; try lia.
    - apply Z.mod_pos_bound. lia.
    - apply Z.mod_le; lia. }
  pose proof (length_run_steps (fun _ => burst) (Z.to_nat (to_uint8 n)) 0 b)
    as Hlen.
  split.
  - eexists _, _. split; [apply ReadFIFO_done; lia|].
    split; [apply length_fill|].
    intros j Hj. apply lookup_fill_above.
    rewrite length_map, Hlen. lia.
  - eexists _, _. split; [apply ReadFIFO_Current_done; lia|].
    split; [apply length_fill|].
    intros j Hj. apply lookup_fill_above.
    rewrite length_map, Hlen. lia.
Qed.

End Pipeline.

(** ** Capacity and burst size *)

Section Capacity.

Context {device : Type} `{!I2CSlave device}.

(** C4, as the code has it.  [MAX30101_ReadFIFO] takes no capacity and
    checks nothing before it touches the bus: asked for [n] samples,
    [1 <= n <= 255], on a destination of any length, shorter than [n]
    included, the first thing it puts on the wire is a six-byte burst
    read of the FIFO data port, and everything it puts on the wire is
    such a burst.  Keeping [n] within the destination is left to the
    caller. *)
Theorem ReadFIFO_reads_before_any_check (samples : list MAX30101_Sample)
  (n : Z) (b : bus device) :
  1 <= n <= 255 ->
  (exists rest : list transaction,
      emitted (MAX30101_ReadFIFO samples n) b =
        BusRead SENSOR_ADDR FIFO_DATAREG 6 :: rest)
  /\ Forall (fun t => t = BusRead SENSOR_ADDR FIFO_DATAREG 6)
            (emitted (MAX30101_ReadFIFO samples n) b).
Proof.
  intros Hn.
  assert (Hk : to_uint8 n = n) by (apply to_uint8_id; unfold is_uint8; lia).
  rewrite emitted_ReadFIFO, Hk.
  destruct (Nat.min (Z.to_nat n) (S (length samples))) as [|k] eqn:Hmin; [lia|].
  split.
  - exists (replicate k (BusRead SENSOR_ADDR FIFO_DATAREG 6)). reflexivity.
  - clear. generalize (S k). intros m.
    induction m as [|m IH]; cbn [replicate]; constructor; auto.
Qed.

(** C5, as the code has it.  Whichever profile was configured, and for
    every [n] with [0 <= n <= 32] that the destination can hold, each of
    the [n] bursts of [MAX30101_ReadFIFO] and of
    [MAX30101_ReadFIFO_Current] asks the data port for exactly 6 bytes;
    that is [channelCount * 2] for the triple-channel profile. *)
Theorem bursts_are_six_bytes (p : OperatingProfile) (drivePower : Z)
  (raw : list MAX30101_Sample) (cur : list MAX30101_SampleCurrent)
  (n : Z) (b0 : bus device) :
  0 <= n <= 32 ->
  n <= Z.of_nat (length raw) -> n <= Z.of_nat (length cur) ->
  let b := final (configure p drivePower b0) in
  emitted (MAX30101_ReadFIFO raw n) b =
    replicate (Z.to_nat n) (BusRead SENSOR_ADDR FIFO_DATAREG 6)
  /\ emitted (MAX30101_ReadFIFO_Current cur n) b =
    replicate (Z.to_nat n) (BusRead SENSOR_ADDR FIFO_DATAREG 6)
  /\ 6 = channelCount TripleChannelHighPenetration * 2.
Proof.
  intros Hn Hraw Hcur b.
  assert (Hk : to_uint8 n = n) by (apply to_uint8_id; unfold is_uint8; lia).
  split; [|split; [|reflexivity]].
  - rewrite emitted_ReadFIFO, Hk. f_equal. lia.
  - rewrite emitted_ReadFIFO_Current, Hk. f_equal. lia.
Qed.

End Capacity.

(** ** FIFO pointer arithmetic *)

Lemma mask_5_bits (x : Z) : Z.land x 0x1F = x mod 32.
Proof. change 0x1F with (Z.ones 5). apply Z.land_ones. lia. Qed.

Section Pointers.

Context {device : Type} `{!I2CSlave device}.

(** C2.  When the write-pointer register delivers the byte [wb] and the
    read-pointer register the byte [rb], with [w] and [r] their low five
    bits, [MAX30101_GetNumAvailableSamples] returns [(w - r) mod 32]; the
    result lies in [0, 31], is 0 when [w = r], and is 6 when [w = 3] and
    [r = 29]. *)
Theorem available_is_difference_mod_32 (b b1 b2 : bus device) (wb rb : Z) :
  I2C1_Read SENSOR_ADDR FIFO_WRITPTR 1 b = Done [wb] b1 ->
  I2C1_Read SENSOR_ADDR FIFO_READPTR 1 b1 = Done [rb] b2 ->
  let w := Z.land wb 0x1F in
  let r := Z.land rb 0x1F in
  (0 <= w <= 31 /\ 0 <= r <= 31)
  /\ exists n : Z,
      MAX30101_GetNumAvailableSamples b = Done n b2
      /\ n = (w - r) mod 32
      /\ 0 <= n <= 31
      /\ (w = r -> n = 0)
      /\ (w = 3 -> r = 29 -> n = 6).
Proof.
  intros Hw Hr w r.
  assert (Hwr : 0 <= w <= 31 /\ 0 <= r <= 31).
  { subst w r. rewrite !mask_5_bits.
    pose proof (Z.mod_pos_bound wb 32). pose proof (Z.mod_pos_bound rb 32).
    lia. }
  split; [exact Hwr|].
  unfold MAX30101_GetNumAvailableSamples, bind, ret.
  rewrite Hw. rewrite Hr. cbn [nth]. fold w r.
  rewrite (to_uint8_id w), (to_uint8_id r) by (unfold is_uint8; lia).
  eexists. split; [reflexivity|].
  assert (Hn : (if w >=? r then to_uint8 (w - r) else to_uint8 (32 - r + w))
               = (w - r) mod 32).
  { destruct (Z.geb_spec w r) as [Hge|Hlt].
    - rewrite to_uint8_id by (unfold is_uint8; lia).
      symmetry. apply Z.mod_small. lia.
    - rewrite to_uint8_id by (unfold is_uint8; lia).
      apply (Z.mod_unique (w - r) 32 (-1)); lia. }
  rewrite Hn.
  split; [reflexivity|].
  split; [pose proof (Z.mod_pos_bound (w - r) 32); lia|].
  split.
  - intros ->. rewrite Z.sub_diag. reflexivity.
  - intros -> ->. reflexivity.
Qed.

End Pointers.

(** ** Configuration sequences *)

Section Configuration.

Context {device : Type} `{!I2CSlave device}.

Lemma emitted_InitSPO2Lite (b : bus device) :
  completes (MAX30101_InitSPO2Lite b) = true
  /\ emitted MAX30101_InitSPO2Lite b =
     [BusWrite SENSOR_ADDR FIFO_CONFIG 0x4F;
      BusWrite SENSOR_ADDR MODE_CONFIG 0x03;
      BusWrite SENSOR_ADDR SPO2_CONFIG 0x23;
      BusWrite SENSOR_ADDR FIFO_READPTR 0x0;
      BusWrite SENSOR_ADDR FIFO_WRITPTR 0x0;
      BusWrite SENSOR_ADDR LED1_PAMPLI 0x18;
      BusWrite SENSOR_ADDR LED2_PAMPLI 0x18;
      BusWrite SENSOR_ADDR DIE_TEMPCFG 0x01].
Proof.
  split; [reflexivity|].
  apply emitted_extends.
  unfold MAX30101_InitSPO2Lite, bind, I2C1_Write. cbn [final wire].
  rewrite <- !app_assoc. reflexivity.
Qed.

Lemma emitted_InitMuscleOx (ledPower : Z) (b : bus device) :
  completes (MAX30101_InitMuscleOx ledPower b) = true
  /\ emitted (MAX30101_InitMuscleOx ledPower) b =
     [BusWrite SENSOR_ADDR FIFO_CONFIG 0x4F;
      BusWrite SENSOR_ADDR MODE_CONFIG 0x07;
      BusWrite SENSOR_ADDR SPO2_CONFIG 0x26;
      BusWrite SENSOR_ADDR FIFO_READPTR 0x0;
      BusWrite SENSOR_ADDR FIFO_WRITPTR 0x0;
      BusWrite SENSOR_ADDR LED1_PAMPLI (to_uint8 ledPower);
      BusWrite SENSOR_ADDR LED2_PAMPLI (to_uint8 ledPower);
      BusWrite SENSOR_ADDR LED3_PAMPLI (to_uint8 ledPower);
      BusWrite SENSOR_ADDR DIE_TEMPCFG 0x01].
Proof.
  split; [reflexivity|].
  apply emitted_extends.
  unfold MAX30101_InitMuscleOx, bind, I2C1_Write. cbn [final wire].
  rewrite <- !app_assoc.
  rewrite (to_uint8_id (to_uint8 ledPower)) by apply to_uint8_range.
  reflexivity.
Qed.

Lemma resets_follow_setup_SPO2Lite :
  resets_follow_setup
    [BusWrite SENSOR_ADDR FIFO_CONFIG 0x4F;
     BusWrite SENSOR_ADDR MODE_CONFIG 0x03;
     BusWrite SENSOR_ADDR SPO2_CONFIG 0x23;
     BusWrite SENSOR_ADDR FIFO_READPTR 0x0;
     BusWrite SENSOR_ADDR FIFO_WRITPTR 0x0;
     BusWrite SENSOR_ADDR LED1_PAMPLI 0x18;
     BusWrite SENSOR_ADDR LED2_PAMPLI 0x18;
     BusWrite SENSOR_ADDR DIE_TEMPCFG 0x01].
Proof.
  unfold resets_follow_setup. repeat split.
  - exists 3%nat. reflexivity.
  - exists 4%nat. reflexivity.
  - exists 0%nat, 0x4F. reflexivity.
  - exists 1%nat, 0x03. reflexivity.
  - intros i j t u Hi Ht Hj Hu.
    destruct i as [|[|[|[|[|[|[|[|i]]]]]]]]; cbn in Hi;
      try discriminate Hi; injection Hi as <-;
      cbn in Ht; try discriminate Ht;
      (destruct j as [|[|[|[|[|[|[|[|j]]]]]]]]; cbn in Hj;
       try discriminate Hj; injection Hj as <-;
       cbn in Hu; try discriminate Hu; lia).
Qed.

Lemma resets_follow_setup_MuscleOx (data : Z) :
  resets_follow_setup
    [BusWrite SENSOR_ADDR FIFO_CONFIG 0x4F;
     BusWrite SENSOR_ADDR MODE_CONFIG 0x07;
     BusWrite SENSOR_ADDR SPO2_CONFIG 0x26;
     BusWrite SENSOR_ADDR FIFO_READPTR 0x0;
     BusWrite SENSOR_ADDR FIFO_WRITPTR 0x0;
     BusWrite SENSOR_ADDR LED1_PAMPLI data;
     BusWrite SENSOR_ADDR LED2_PAMPLI data;
     BusWrite SENSOR_ADDR LED3_PAMPLI data;
     BusWrite SENSOR_ADDR DIE_TEMPCFG 0x01].
Proof.
  unfold resets_follow_setup. repeat split.
  - exists 3%nat. reflexivity.
  - exists 4%nat. reflexivity.
  - exists 0%nat, 0x4F. reflexivity.
  - exists 1%nat, 0x07. reflexivity.
  - intros i j t u Hi Ht Hj Hu.
    destruct i as [|[|[|[|[|[|[|[|[|i]]]]]]]]]; cbn in Hi;
      try discriminate Hi; injection Hi as <-;
      cbn in Ht; try discriminate Ht;
      (destruct j as [|[|[|[|[|[|[|[|[|j]]]]]]]]]; cbn in Hj;
       try discriminate Hj; injection Hj as <-;
       cbn in Hu; try discriminate Hu; lia).
Qed.

(** C6.  Both configuration operations return, and in the sequence of
    register writes each of them emits, the FIFO read pointer and the
    FIFO write pointer are reset to zero, the FIFO configuration and the
    acquisition mode are set, and every pointer reset comes strictly
    after every write to the FIFO configuration or mode register.  The
    resets are part of what the operation itself emits, so they are on
    the wire when it returns. *)
Theorem pointer_resets_follow_setup (ledPower : Z) (b : bus device) :
  (completes (MAX30101_InitSPO2Lite b) = true
   /\ resets_follow_setup (emitted MAX30101_InitSPO2Lite b))
  /\ (completes (MAX30101_InitMuscleOx ledPower b) = true
      /\ resets_follow_setup (emitted (MAX30101_InitMuscleOx ledPower) b)).
Proof.
  split.
  - destruct (emitted_InitSPO2Lite b) as [Hdone ->].
    split; [exact Hdone|apply resets_follow_setup_SPO2Lite].
  - destruct (emitted_InitMuscleOx ledPower b) as [Hdone ->].
    split; [exact Hdone|apply resets_follow_setup_MuscleOx].
Qed.

(** C9.  For a drive-current byte [ledPower] in [0, 255],
    [MAX30101_InitMuscleOx] writes the channel drive-current registers
    exactly three times: LED1, LED2 and LED3 pulse amplitude, each with
    the byte [ledPower] itself. *)
Theorem InitMuscleOx_drive_current (ledPower : Z) (b : bus device) :
  0 <= ledPower <= 255 ->
  List.filter is_drive_current_write
    (emitted (MAX30101_InitMuscleOx ledPower) b) =
    [BusWrite SENSOR_ADDR LED1_PAMPLI ledPower;
     BusWrite SENSOR_ADDR LED2_PAMPLI ledPower;
     BusWrite SENSOR_ADDR LED3_PAMPLI ledPower].
Proof.
  intros Hrange.
  destruct (emitted_InitMuscleOx ledPower b) as [_ ->].
  rewrite to_uint8_id by (unfold is_uint8; lia).
  reflexivity.
Qed.

End Configuration.

(** ** binary32 conversion of 16-bit counts *)

Lemma digits2_pos_size (p : positive) : digits2_pos p = Pos.size p.
Proof. induction p; simpl; congruence. Qed.

Lemma digits2_pos_uint16 (p : positive) :
  Z.pos p < 65536 -> Z.pos (digits2_pos p) <= 16.
Proof.
  intros Hp. rewrite digits2_pos_size.
  pose proof (Pos.size_le p) as Hle.
  destruct (Z.leb_spec (Z.pos (Pos.size p)) 16) as [H|H]; [exact H|].
  exfalso.
  assert (Hpow : 2 ^ 17 <= 2 ^ Z.pos (Pos.size p)).
  { apply Z.pow_le_mono_r; lia. }
  assert (Hz : 2 ^ Z.pos (Pos.size p) <= Z.pos p~0).
  { rewrite <- (Pos2Z.inj_pow 2 (Pos.size p)). lia. }
  lia.
Qed.

Lemma digits2_pos_shift (p q : positive) :
  digits2_pos (Pos.iter xO p q) = (digits2_pos p + q)%positive.
Proof.
  induction q as [|q IH] using Pos.peano_ind.
  - simpl. lia.
  - rewrite Pos.iter_succ. simpl. rewrite IH. lia.
Qed.

Lemma Zpos_shift (p q : positive) :
  Z.pos (Pos.iter xO p q) = Z.pos p * 2 ^ Z.pos q.
Proof.
  induction q as [|q IH] using Pos.peano_ind.
  - simpl. lia.
  - rewrite Pos.iter_succ, Pos2Z.inj_succ, Z.pow_succ_r by lia.
    rewrite Pos2Z.inj_xO, IH. ring.
Qed.

(** A mantissa of 24 digits with an exponent in range needs no
    rounding. *)
Lemma shr_fexp_normal (m : positive) (e : Z) :
  digits2_pos m = 24%positive -> -149 <= e ->
  shr_fexp 24 128 (Z.pos m) e loc_Exact =
    ({| shr_m := Z.pos m; shr_r := false; shr_s := false |}, e).
Proof.
  intros Hm He. unfold shr_fexp, Zdigits2. rewrite Hm.
  unfold fexp, emin.
  replace (Z.max (24 + e - 24) (3 - 128 - 24) - e) with 0 by lia.
  reflexivity.
Qed.

Lemma binary_round_aux_normal (s : bool) (m : positive) (e : Z) :
  digits2_pos m = 24%positive -> -149 <= e <= 104 ->
  binary_round_aux 24 128 s (Z.pos m) e loc_Exact = S754_finite s m e.
Proof.
  intros Hm He. unfold binary_round_aux.
  rewrite shr_fexp_normal by (trivial; lia).
  cbn [shr_m loc_of_shr_record round_nearest_even].
  rewrite shr_fexp_normal by (trivial; lia).
  cbn [shr_m].
  destruct (Z.leb_spec e (128 - 24)); [reflexivity|lia].
Qed.

(** A positive integer of fewer than 24 binary digits converts to itself
    shifted up to 24 digits, with the exponent that undoes the shift. *)
Lemma of_Z_pos (p : positive) :
  Z.pos (digits2_pos p) < 24 ->
  F32.of_Z (Z.pos p) =
    S754_finite false
      (Pos.iter xO p (Z.to_pos (24 - Z.pos (digits2_pos p))))
      (Z.pos (digits2_pos p) - 24).
Proof.
  intros Hd.
  unfold F32.of_Z, F32.prec, F32.emax, binary_normalize, binary_round,
    shl_align.
  assert (Hf : fexp 24 128 (Z.pos (digits2_pos p) + 0)
               = Z.pos (digits2_pos p) - 24).
  { unfold fexp, emin. lia. }
  rewrite Hf.
  destruct (Z.pos (digits2_pos p) - 24 - 0) as [|q|q] eqn:Hq; try lia.
  replace (Z.to_pos (24 - Z.pos (digits2_pos p))) with q by lia.
  apply binary_round_aux_normal; [|lia].
  rewrite digits2_pos_shift. lia.
Qed.

(** [(float32_t)temp] is exact for every [uint16_t]. *)
Lemma of_Z_exact (c : Z) :
  is_uint16 c -> F32.represents (F32.of_Z c) (inject_Z c).
Proof.
  unfold is_uint16. intros Hc. destruct c as [|p|p]; try lia.
  - reflexivity.
  - pose proof (digits2_pos_uint16 p ltac:(lia)) as Hd.
    rewrite of_Z_pos by lia.
    unfold F32.represents, F32.to_Q.
    destruct (Z.leb_spec 0 (Z.pos (digits2_pos p) - 24)) as [H|_]; [lia|].
    unfold Qeq, inject_Z. cbn [Qnum Qden].
    rewrite Zpos_shift.
    rewrite !Z2Pos.id by (try apply Z.pow_pos_nonneg; lia).
    replace (- (Z.pos (digits2_pos p) - 24)) with (24 - Z.pos (digits2_pos p))
      by lia.
    ring.
Qed.

(** [7.81f / 1000.0f], evaluated in binary32, is the binary32 value
    nearest to 0.00781: the constant [0x3BFFEB07]. *)
Lemma MAX30101_CURRENT_LSB_NA_value :
  MAX30101_CURRENT_LSB_NA = F32.literal 781 100000
  /\ F32.bits MAX30101_CURRENT_LSB_NA = Some 0x3BFFEB07.
Proof. split; vm_compute; reflexivity. Qed.

Lemma count_of_pair (hi lo : Z) :
  is_uint8 hi -> is_uint8 lo ->
  to_uint16 (Z.lor (Z.shiftl (to_uint16 hi) 8) (to_uint16 lo)) = hi * 256 + lo.
Proof.
  intros Hhi Hlo.
  rewrite (to_uint16_id hi), (to_uint16_id lo) by (apply uint8_is_uint16; assumption).
  rewrite combine_bytes by assumption.
  apply to_uint16_id, combine_bytes_range; assumption.
Qed.

Lemma exact_count_of_pair (hi lo : Z) :
  is_uint8 hi -> is_uint8 lo -> exact_count hi lo (hi * 256 + lo).
Proof.
  intros Hhi Hlo.
  pose proof (combine_bytes_range hi lo Hhi Hlo) as Hc.
  unfold exact_count. split; [reflexivity|]. split; [exact Hc|].
  unfold is_uint8 in *.
  split; [|split].
  - symmetry. apply (Z.div_unique (hi * 256 + lo) 256 hi lo); lia.
  - symmetry. apply (Z.mod_unique (hi * 256 + lo) 256 hi lo); lia.
  - apply of_Z_exact, Hc.
Qed.

(** ** Counts to current *)

Section RoundTrip.

Context {device : Type} `{!I2CSlave device}.

(** C7.  For the six bytes of a sample, a (high, low) pair per channel:
    [MAX30101_ConvertSampleToUint16] yields per channel the count
    [(hi << 8) | lo], exact and lossless over 16 bits;
    [MAX30101_ConvertUint16ToCurrent] then yields per channel that count
    times the LSB constant in one binary32 multiplication, the constant
    [7.81f / 1000.0f] being the binary32 value of 0.00781 and the
    conversion of the count to [float32_t] being exact; and when the bus
    delivers these six bytes, the two-stage path stores this sample and
    the fused path [MAX30101_ReadFIFO_Current] stores the same three
    binary32 values. *)
Theorem counts_to_current_round_trip (r0 r1 i0 i1 g0 g1 : Z)
  (raw : list MAX30101_Sample) (cur : list MAX30101_SampleCurrent)
  (b : bus device) (d' : device) :
  is_uint8 r0 -> is_uint8 r1 -> is_uint8 i0 -> is_uint8 i1 ->
  is_uint8 g0 -> is_uint8 g1 ->
  let s := mkSample (r0, r1) (i0, i1) (g0, g1) in
  let counts := MAX30101_ConvertSampleToUint16 s in
  let nA := mkSampleCurrent (scaled r0 r1) (scaled i0 i1) (scaled g0 g1) in
  (exact_count r0 r1 (red16 counts)
   /\ exact_count i0 i1 (ir16 counts)
   /\ exact_count g0 g1 (green16 counts))
  /\ MAX30101_CURRENT_LSB_NA = F32.literal 781 100000
  /\ MAX30101_ConvertUint16ToCurrent counts = nA
  /\ (clock_in SENSOR_ADDR FIFO_DATAREG 6 (dev b)
        = ([r0; r1; i0; i1; g0; g1], d') ->
      raw <> [] -> cur <> [] ->
      exists b' : bus device,
        MAX30101_ReadFIFO raw 1 b = Done (<[0%nat := s]> raw) b'
        /\ MAX30101_ReadFIFO_Current cur 1 b = Done (<[0%nat := nA]> cur) b').
Proof.
  intros Hr0 Hr1 Hi0 Hi1 Hg0 Hg1 s counts nA.
  assert (Hcounts : counts = mkSampleData (r0 * 256 + r1) (i0 * 256 + i1)
                                          (g0 * 256 + g1)).
  { subst counts s. unfold MAX30101_ConvertSampleToUint16. cbn [red ir green fst snd].
    rewrite !count_of_pair by assumption. reflexivity. }
  assert (HnA : MAX30101_ConvertUint16ToCurrent counts = nA).
  { rewrite Hcounts. unfold MAX30101_ConvertUint16ToCurrent, nA, scaled.
    cbn [red16 ir16 green16].
    rewrite (proj1 MAX30101_CURRENT_LSB_NA_value). reflexivity. }
  split; [|split; [|split]].
  - rewrite Hcounts. cbn [red16 ir16 green16].
    repeat split; apply exact_count_of_pair; assumption.
  - apply MAX30101_CURRENT_LSB_NA_value.
  - exact HnA.
  - intros Hclock Hraw Hcur.
    assert (Hburst : (burst b).1 = [r0; r1; i0; i1; g0; g1]).
    { unfold burst. rewrite Hclock. reflexivity. }
    assert (Hbytes : Forall is_uint8 [r0; r1; i0; i1; g0; g1])
      by (do 6 (constructor; [assumption|]); constructor).
    exists (burst b).2. split.
    + rewrite ReadFIFO_done
        by (change (Z.to_nat (to_uint8 1)) with 1%nat;
            destruct raw; [contradiction|simpl; lia]).
      change (Z.to_nat (to_uint8 1)) with 1%nat.
      cbn [run_steps]. destruct (burst b) as [data b1]. cbn [fst snd] in *.
      subst data. reflexivity.
    + rewrite ReadFIFO_Current_done
        by (change (Z.to_nat (to_uint8 1)) with 1%nat;
            destruct cur; [contradiction|simpl; lia]).
      change (Z.to_nat (to_uint8 1)) with 1%nat.
      cbn [run_steps]. destruct (burst b) as [data b1]. cbn [fst snd] in *.
      subst data. cbn [map fill].
      rewrite <- (current_of_bytes_two_stage _ Hbytes).
      change (MAX30101_ConvertSampleToUint16
                (raw_of_bytes [r0; r1; i0; i1; g0; g1])) with counts.
      rewrite HnA. reflexivity.
Qed.

End RoundTrip.

(** ** The periodic handler *)

Section Handler.

Context {device : Type} `{!I2CSlave device}.

(** The handler hands the count it got from the sensor to the fused read
    as it is: within the result buffer the read completes and the LED is
    toggled; beyond it, the read stops at the first store outside the
    buffer and so does the handler. *)
Lemma SysTick_Handler_passes_count (g : globals) (b b1 : bus device) (n : Z) :
  MAX30101_GetNumAvailableSamples b = Done n b1 ->
  0 < n <= 255 ->
  SysTick_Handler g b =
    match MAX30101_ReadFIFO_Current (MAX30101_SampleCurrentBuffer g) n b1 with
    | Done buf b2 =>
        Done (LED_Toggle (mkGlobals (to_uint32 (ticks g + 1)) buf (GPIOB_ODR g)))
             b2
    | Fault b2 => Fault b2
    end.
Proof.
  intros Hget Hn. unfold SysTick_Handler, bind, ret. rewrite Hget.
  destruct (Z.gtb_spec n 0) as [_|Hle]; [|lia].
  cbn [MAX30101_SampleCurrentBuffer ticks GPIOB_ODR].
  destruct (MAX30101_ReadFIFO_Current (MAX30101_SampleCurrentBuffer g) n b1);
    reflexivity.
Qed.

Lemma SysTick_Handler_beyond_capacity (g : globals) (b b1 : bus device) (n : Z) :
  MAX30101_GetNumAvailableSamples b = Done n b1 ->
  Z.of_nat (length (MAX30101_SampleCurrentBuffer g)) < n <= 255 ->
  completes (SysTick_Handler g b) = false
  /\ wire (final (SysTick_Handler g b)) =
     wire b1 ++ replicate (S (length (MAX30101_SampleCurrentBuffer g)))
                          (BusRead SENSOR_ADDR FIFO_DATAREG 6).
Proof.
  intros Hget Hn.
  rewrite (SysTick_Handler_passes_count g b b1 n Hget) by lia.
  rewrite ReadFIFO_Current_fault
    by (rewrite to_uint8_id by (unfold is_uint8; lia); lia).
  split; [reflexivity|]. cbn [final]. apply bursts_wire.
Qed.

End Handler.

(** ** Runs on the bench device *)

(** C1.  With nine samples pending (write pointer 9, read pointer 0) and
    the 8-entry result buffer of [main.c], [SysTick_Handler] does not
    clamp the count: it asks the fused read for all 9, where
    [min 9 8 = 8]; nine bursts go over the bus and the ninth store falls
    outside the buffer. *)
Theorem SysTick_Handler_overruns_result_buffer :
  let b := bench_bus 9 0 (replicate 54 0x5A) in
  value (MAX30101_GetNumAvailableSamples b) = Some 9
  /\ Z.min 9 (Z.of_nat (length (MAX30101_SampleCurrentBuffer globals0))) = 8
  /\ emitted (SysTick_Handler globals0) b =
     [BusRead SENSOR_ADDR FIFO_WRITPTR 1; BusRead SENSOR_ADDR FIFO_READPTR 1]
     ++ replicate 9 (BusRead SENSOR_ADDR FIFO_DATAREG 6)
  /\ completes (SysTick_Handler globals0 b) = false
  /\ completes (MAX30101_ReadFIFO_Current
                  (MAX30101_SampleCurrentBuffer globals0) 8
                  (final (MAX30101_GetNumAvailableSamples b))) = true.
Proof. vm_compute. repeat split; reflexivity. Qed.

(** C4 fails as stated: asked for 9 samples on a destination of 8,
    [MAX30101_ReadFIFO] reports nothing and has put nine data-port bursts
    on the wire. *)
Lemma ReadFIFO_beyond_capacity_reads_the_bus :
  let samples := replicate 8 zero_sample in
  let b := bench_bus 9 0 (replicate 54 0x5A) in
  (Z.of_nat (length samples) < 9)
  /\ emitted (MAX30101_ReadFIFO samples 9) b =
     replicate 9 (BusRead SENSOR_ADDR FIFO_DATAREG 6)
  /\ emitted (MAX30101_ReadFIFO samples 9) b <> [].
Proof.
  cbv zeta. split; [simpl; lia|].
  rewrite emitted_ReadFIFO. split; [reflexivity|discriminate].
Qed.

(** C5 fails as stated: after the dual-channel configuration (channel
    count 2) a burst of [MAX30101_ReadFIFO], and of
    [MAX30101_ReadFIFO_Current], still asks for 6 bytes, not 4. *)
Lemma dual_channel_burst_is_six_bytes :
  let b := final (configure DualChannelLowPower 0 (bench_bus 1 0 [1; 2; 3; 4; 5; 6])) in
  active_profile (wire b) = Some DualChannelLowPower
  /\ emitted (MAX30101_ReadFIFO (replicate 8 zero_sample) 1) b =
     [BusRead SENSOR_ADDR FIFO_DATAREG 6]
  /\ emitted (MAX30101_ReadFIFO_Current (replicate 8 zero_current) 1) b =
     [BusRead SENSOR_ADDR FIFO_DATAREG 6]
  /\ 6 <> channelCount DualChannelLowPower * 2.
Proof.
  cbv zeta. split; [reflexivity|].
  rewrite emitted_ReadFIFO, emitted_ReadFIFO_Current.
  repeat split. discriminate.
Qed.

(** *** The theorems above at concrete inputs *)

(** Write pointer 3, read pointer 29: six samples are available. *)
Lemma available_3_29_is_6 :
  let b := bench_bus 3 29 [] in
  let b1 := mkBus (dev b) [BusRead SENSOR_ADDR FIFO_WRITPTR 1] in
  let b2 := mkBus (dev b) [BusRead SENSOR_ADDR FIFO_WRITPTR 1;
                           BusRead SENSOR_ADDR FIFO_READPTR 1] in
  (I2C1_Read SENSOR_ADDR FIFO_WRITPTR 1 b = Done [3] b1
   /\ I2C1_Read SENSOR_ADDR FIFO_READPTR 1 b1 = Done [29] b2)
  /\ MAX30101_GetNumAvailableSamples b = Done 6 b2.
Proof.
  cbv zeta.
  assert (Hw : I2C1_Read SENSOR_ADDR FIFO_WRITPTR 1 (bench_bus 3 29 []) =
               Done [3] (mkBus (dev (bench_bus 3 29 []))
                               [BusRead SENSOR_ADDR FIFO_WRITPTR 1]))
    by reflexivity.
  assert (Hr : I2C1_Read SENSOR_ADDR FIFO_READPTR 1
                 (mkBus (dev (bench_bus 3 29 []))
                        [BusRead SENSOR_ADDR FIFO_WRITPTR 1]) =
               Done [29] (mkBus (dev (bench_bus 3 29 []))
                                [BusRead SENSOR_ADDR FIFO_WRITPTR 1;
                                 BusRead SENSOR_ADDR FIFO_READPTR 1]))
    by reflexivity.
  split; [split; assumption|].
  destruct (available_is_difference_mod_32 _ _ _ 3 29 Hw Hr)
    as [_ [n [Hrun [_ [_ [_ Hsix]]]]]].
  rewrite Hrun. f_equal. apply Hsix; reflexivity.
Defined.

(** Five samples of six bytes each, through both paths. *)
Lemma five_samples_through_both_paths :
  let raw := replicate 8 zero_sample in
  let out := replicate 8 zero_current in
  let b := bench_bus 5 0 (map Z.of_nat (seq 1 30)) in
  length raw = length out
  /\ two_stage raw out 5 b = MAX30101_ReadFIFO_Current out 5 b.
Proof.
  cbv zeta. split; [reflexivity|].
  apply (fused_equals_two_stage (replicate 8 zero_sample)
           (replicate 8 zero_current) 5
           (bench_bus 5 0 (map Z.of_nat (seq 1 30)))).
  reflexivity.
Defined.

(** Nine samples asked of a destination of eight: the bus is read
    first. *)
Lemma ReadFIFO_9_into_8 :
  let samples := replicate 8 zero_sample in
  let b := bench_bus 9 0 (replicate 54 0x5A) in
  (1 <= 9 <= 255 /\ Z.of_nat (length samples) < 9)
  /\ exists rest : list transaction,
       emitted (MAX30101_ReadFIFO samples 9) b =
         BusRead SENSOR_ADDR FIFO_DATAREG 6 :: rest.
Proof.
  cbv zeta. split; [split; [lia|cbn; lia]|].
  apply (ReadFIFO_reads_before_any_check (replicate 8 zero_sample) 9
           (bench_bus 9 0 (replicate 54 0x5A))).
  lia.
Defined.

(** Two samples after the dual-channel configuration: two bursts of six
    bytes from either read. *)
Lemma bursts_after_dual_channel_configuration :
  let raw := replicate 8 zero_sample in
  let cur := replicate 8 zero_current in
  let b := final (configure DualChannelLowPower 0
                    (bench_bus 2 0 (map Z.of_nat (seq 1 12)))) in
  (0 <= 2 <= 32 /\ 2 <= Z.of_nat (length raw) /\ 2 <= Z.of_nat (length cur))
  /\ emitted (MAX30101_ReadFIFO raw 2) b =
     [BusRead SENSOR_ADDR FIFO_DATAREG 6; BusRead SENSOR_ADDR FIFO_DATAREG 6]
  /\ emitted (MAX30101_ReadFIFO_Current cur 2) b =
     [BusRead SENSOR_ADDR FIFO_DATAREG 6; BusRead SENSOR_ADDR FIFO_DATAREG 6]
  /\ 6 = channelCount TripleChannelHighPenetration * 2.
Proof.
  cbv zeta. split; [simpl; lia|].
  apply (bursts_are_six_bytes DualChannelLowPower 0
           (replicate 8 zero_sample) (replicate 8 zero_current) 2
           (bench_bus 2 0 (map Z.of_nat (seq 1 12)))); simpl; lia.
Defined.

(** The sample 0x1234, 0x5678, 0x9ABC through the conversions and
    through both reads. *)
Lemma round_trip_of_one_sample :
  let raw := replicate 8 zero_sample in
  let cur := replicate 8 zero_current in
  let b := bench_bus 1 0 [0x12; 0x34; 0x56; 0x78; 0x9A; 0xBC] in
  let s := mkSample (0x12, 0x34) (0x56, 0x78) (0x9A, 0xBC) in
  let nA := mkSampleCurrent (scaled 0x12 0x34) (scaled 0x56 0x78)
                            (scaled 0x9A 0xBC) in
  (is_uint8 0x12 /\ is_uint8 0x34 /\ is_uint8 0x56 /\ is_uint8 0x78
   /\ is_uint8 0x9A /\ is_uint8 0xBC)
  /\ exact_count 0x12 0x34 (red16 (MAX30101_ConvertSampleToUint16 s))
  /\ MAX30101_ConvertUint16ToCurrent (MAX30101_ConvertSampleToUint16 s) = nA
  /\ value (MAX30101_ReadFIFO raw 1 b) = Some (<[0%nat := s]> raw)
  /\ value (MAX30101_ReadFIFO_Current cur 1 b) = Some (<[0%nat := nA]> cur).
Proof.
  cbv zeta.
  assert (Hbytes : is_uint8 0x12 /\ is_uint8 0x34 /\ is_uint8 0x56
                   /\ is_uint8 0x78 /\ is_uint8 0x9A /\ is_uint8 0xBC)
    by (unfold is_uint8; lia).
  split; [exact Hbytes|].
  destruct Hbytes as (H1 & H2 & H3 & H4 & H5 & H6).
  destruct (counts_to_current_round_trip 0x12 0x34 0x56 0x78 0x9A 0xBC
              (replicate 8 zero_sample) (replicate 8 zero_current)
              (bench_bus 1 0 [0x12; 0x34; 0x56; 0x78; 0x9A; 0xBC])
              (mkBench [(FIFO_WRITPTR, 1); (FIFO_READPTR, 0)] [])
              H1 H2 H3 H4 H5 H6)
    as [[Hred _] [_ [HnA Hbus]]].
  split; [exact Hred|]. split; [exact HnA|].
  assert (Hclock : clock_in SENSOR_ADDR FIFO_DATAREG 6
                     (dev (bench_bus 1 0 [0x12; 0x34; 0x56; 0x78; 0x9A; 0xBC]))
                   = ([0x12; 0x34; 0x56; 0x78; 0x9A; 0xBC],
                      mkBench [(FIFO_WRITPTR, 1); (FIFO_READPTR, 0)] []))
    by reflexivity.
  destruct (Hbus Hclock) as [b' [Hraw Hcur]]; [discriminate|discriminate|].
  rewrite Hraw, Hcur. split; reflexivity.
Defined.

(** The drive code [0x4B] that [main] passes. *)
Lemma drive_code_0x4B_on_three_channels :
  0 <= 0x4B <= 255
  /\ List.filter is_drive_current_write
       (emitted (MAX30101_InitMuscleOx 0x4B) (bench_bus 0 0 [])) =
     [BusWrite SENSOR_ADDR LED1_PAMPLI 0x4B;
      BusWrite SENSOR_ADDR LED2_PAMPLI 0x4B;
      BusWrite SENSOR_ADDR LED3_PAMPLI 0x4B].
Proof.
  split; [lia|].
  apply (InitMuscleOx_drive_current 0x4B (bench_bus 0 0 [])). lia.
Defined.

(** Three samples into destinations of eight: entries 3 to 7 stay. *)
Lemma reads_of_3_keep_entries_3_to_7 :
  let raw := replicate 8 zero_sample in
  let cur := replicate 8 zero_current in
  let b := bench_bus 3 0 (map Z.of_nat (seq 1 18)) in
  (0 <= 3 /\ 3 <= Z.of_nat (length raw) /\ 3 <= Z.of_nat (length cur))
  /\ (exists raw' b1,
        MAX30101_ReadFIFO raw 3 b = Done raw' b1
        /\ length raw' = length raw
        /\ forall j : nat, 3 <= Z.of_nat j -> raw' !! j = raw !! j)
  /\ (exists cur' b2,
        MAX30101_ReadFIFO_Current cur 3 b = Done cur' b2
        /\ length cur' = length cur
        /\ forall j : nat, 3 <= Z.of_nat j -> cur' !! j = cur !! j).
Proof.
  cbv zeta. split; [simpl; lia|].
  apply (reads_keep_entries_from_n (replicate 8 zero_sample)
           (replicate 8 zero_current) 3
           (bench_bus 3 0 (map Z.of_nat (seq 1 18)))); simpl; lia.
Defined.

(** * The rest of the firmware *)

(** ** Bits of a 32-bit register *)

Lemma testbit_to_uint32 (x k : Z) :
  0 <= k -> Z.testbit (to_uint32 x) k = (k <? 32) && Z.testbit x k.
Proof.
  intros Hk. unfold to_uint32. change 4294967296 with (2 ^ 32).
  destruct (Z.ltb_spec k 32) as [Hlt|Hge].
  - rewrite Z.mod_pow2_bits_low by lia. reflexivity.
  - rewrite Z.mod_pow2_bits_high by lia. reflexivity.
Qed.

Lemma to_uint32_range (x : Z) : is_uint32 (to_uint32 x).
Proof. unfold is_uint32, to_uint32. apply Z.mod_pos_bound. lia. Qed.

Lemma to_uint32_id (x : Z) : is_uint32 x -> to_uint32 x = x.
Proof. unfold is_uint32, to_uint32. intros Hx. apply Z.mod_small. lia. Qed.

Lemma uint32_high_bits (x k : Z) :
  is_uint32 x -> 32 <= k -> Z.testbit x k = false.
Proof.
  intros Hx Hk. rewrite <- (to_uint32_id x Hx).
  rewrite testbit_to_uint32 by lia.
  destruct (Z.ltb_spec k 32); [lia|reflexivity].
Qed.

(** Two 32-bit values with the same 32 bits are equal. *)
Lemma uint32_eq_bits (x y : Z) :
  is_uint32 x -> is_uint32 y ->
  (forall k : Z, 0 <= k < 32 -> Z.testbit x k = Z.testbit y k) -> x = y.
Proof.
  intros Hx Hy Hbits. apply Z.bits_inj'. intros k Hk.
  destruct (Z_lt_dec k 32) as [Hlt|Hge].
  - apply Hbits. lia.
  - rewrite !uint32_high_bits by (assumption || lia). reflexivity.
Qed.

Lemma testbit_bit3 (k : Z) : 0 <= k -> Z.testbit (Z.shiftl 1 3) k = (k =? 3).
Proof.
  intros Hk. change (Z.shiftl 1 3) with (2 ^ 3).
  rewrite Z.pow2_bits_eqb by lia. apply Z.eqb_sym.
Qed.

(** ** The status LED *)

Lemma LED_Toggle_bits (g : globals) (k : Z) :
  0 <= k < 32 ->
  Z.testbit (GPIOB_ODR (LED_Toggle g)) k =
    xorb (Z.testbit (GPIOB_ODR g) k) (k =? 3).
Proof.
  intros Hk. unfold LED_Toggle. cbn [GPIOB_ODR].
  rewrite testbit_to_uint32, Z.lxor_spec, testbit_bit3 by lia.
  destruct (Z.ltb_spec k 32); [reflexivity|lia].
Qed.

Lemma LED_On_bits (g : globals) (k : Z) :
  0 <= k < 32 ->
  Z.testbit (GPIOB_ODR (LED_On g)) k = Z.testbit (GPIOB_ODR g) k || (k =? 3).
Proof.
  intros Hk. unfold LED_On. cbn [GPIOB_ODR].
  rewrite testbit_to_uint32, Z.lor_spec, testbit_bit3 by lia.
  destruct (Z.ltb_spec k 32); [reflexivity|lia].
Qed.

Lemma LED_Off_bits (g : globals) (k : Z) :
  0 <= k < 32 ->
  Z.testbit (GPIOB_ODR (LED_Off g)) k =
    Z.testbit (GPIOB_ODR g) k && negb (k =? 3).
Proof.
  intros Hk. unfold LED_Off. cbn [GPIOB_ODR].
  rewrite testbit_to_uint32, Z.land_spec by lia.
  rewrite testbit_to_uint32, Z.lnot_spec, testbit_bit3 by lia.
  destruct (Z.ltb_spec k 32); [|lia].
  cbn [andb]. reflexivity.
Qed.

Lemma globals_eq (g h : globals) :
  ticks g = ticks h ->
  MAX30101_SampleCurrentBuffer g = MAX30101_SampleCurrentBuffer h ->
  GPIOB_ODR g = GPIOB_ODR h -> g = h.
Proof. destruct g, h. cbn. intros -> -> ->. reflexivity. Qed.

(** X1.  [LED_Toggle] inverts bit 3 of the output data register and
    leaves its other 31 bits, the tick counter and the result buffer as
    they are; on a 32-bit register value, toggling twice restores the
    globals. *)
Theorem LED_Toggle_flips_bit_3 (g : globals) :
  is_uint32 (GPIOB_ODR g) ->
  (forall k : Z, 0 <= k < 32 ->
     Z.testbit (GPIOB_ODR (LED_Toggle g)) k =
       if k =? 3 then negb (Z.testbit (GPIOB_ODR g) k)
       else Z.testbit (GPIOB_ODR g) k)
  /\ ticks (LED_Toggle g) = ticks g
  /\ MAX30101_SampleCurrentBuffer (LED_Toggle g) = MAX30101_SampleCurrentBuffer g
  /\ LED_Toggle (LED_Toggle g) = g.
Proof.
  intros Hodr. split; [|split; [reflexivity|split; [reflexivity|]]].
  - intros k Hk. rewrite LED_Toggle_bits by exact Hk.
    destruct (k =? 3), (Z.testbit (GPIOB_ODR g) k); reflexivity.
  - apply globals_eq; try reflexivity.
    apply uint32_eq_bits; [apply to_uint32_range|exact Hodr|].
    intros k Hk. rewrite !LED_Toggle_bits by exact Hk.
    destruct (k =? 3), (Z.testbit (GPIOB_ODR g) k); reflexivity.
Qed.

(** X2.  [LED_On] sets bit 3 of the output data register and [LED_Off]
    clears it; neither changes another bit.  Each is idempotent, the
    later of the two wins, and toggling after [LED_On] is [LED_Off]. *)
Theorem LED_On_Off_bit_3 (g : globals) :
  is_uint32 (GPIOB_ODR g) ->
  (forall k : Z, 0 <= k < 32 ->
     Z.testbit (GPIOB_ODR (LED_On g)) k =
       (if k =? 3 then true else Z.testbit (GPIOB_ODR g) k)
     /\ Z.testbit (GPIOB_ODR (LED_Off g)) k =
       (if k =? 3 then false else Z.testbit (GPIOB_ODR g) k))
  /\ LED_On (LED_On g) = LED_On g
  /\ LED_Off (LED_Off g) = LED_Off g
  /\ LED_Off (LED_On g) = LED_Off g
  /\ LED_On (LED_Off g) = LED_On g
  /\ LED_Toggle (LED_On g) = LED_Off g.
Proof.
  intros Hodr.
  assert (Heq : forall a b : globals,
             ticks a = ticks b ->
             MAX30101_SampleCurrentBuffer a = MAX30101_SampleCurrentBuffer b ->
             is_uint32 (GPIOB_ODR a) -> is_uint32 (GPIOB_ODR b) ->
             (forall k, 0 <= k < 32 ->
                Z.testbit (GPIOB_ODR a) k = Z.testbit (GPIOB_ODR b) k) ->
             a = b).
  { intros a b Ht Hb Ha Hb' Hbits. apply globals_eq; try assumption.
    apply uint32_eq_bits; assumption. }
  split.
  - intros k Hk. rewrite LED_On_bits, LED_Off_bits by exact Hk.
    destruct (k =? 3), (Z.testbit (GPIOB_ODR g) k); split; reflexivity.
  - repeat split; apply Heq; try reflexivity; try apply to_uint32_range;
      intros k Hk;
      rewrite ?LED_Toggle_bits, ?LED_On_bits, ?LED_Off_bits by exact Hk;
      rewrite ?LED_On_bits, ?LED_Off_bits by exact Hk;
      destruct (k =? 3), (Z.testbit (GPIOB_ODR g) k); reflexivity.
Qed.

Lemma testbit_moder_mask (k : Z) :
  0 <= k ->
  Z.testbit (Z.lor (Z.shiftl 3 6) (Z.shiftl 3 8)) k = (6 <=? k) && (k <=? 9).
Proof.
  intros Hk.
  change (Z.lor (Z.shiftl 3 6) (Z.shiftl 3 8))
    with (Z.lor (Z.lor (2 ^ 6) (2 ^ 7)) (Z.lor (2 ^ 8) (2 ^ 9))).
  rewrite !Z.lor_spec, !Z.pow2_bits_eqb by lia.
  destruct (Z.leb_spec 6 k), (Z.leb_spec k 9),
    (Z.eqb_spec 6 k), (Z.eqb_spec 7 k), (Z.eqb_spec 8 k), (Z.eqb_spec 9 k);
    try reflexivity; lia.
Qed.

Lemma testbit_moder_output (k : Z) :
  0 <= k ->
  Z.testbit (Z.lor (Z.shiftl 1 6) (Z.shiftl 1 8)) k = (k =? 6) || (k =? 8).
Proof.
  intros Hk.
  change (Z.lor (Z.shiftl 1 6) (Z.shiftl 1 8)) with (Z.lor (2 ^ 6) (2 ^ 8)).
  rewrite Z.lor_spec, !Z.pow2_bits_eqb by lia.
  rewrite (Z.eqb_sym 6 k), (Z.eqb_sym 8 k). reflexivity.
Qed.

Lemma LED_config_moder_bits (en : Z) (p : port_regs) (k : Z) :
  0 <= k < 32 ->
  Z.testbit (GPIOB_MODER (LED_config en p)) k =
    if (6 <=? k) && (k <=? 9) then (k =? 6) || (k =? 8)
    else Z.testbit (GPIOB_MODER p) k.
Proof.
  intros Hk. unfold LED_config. cbn [GPIOB_MODER].
  rewrite testbit_to_uint32, Z.lor_spec, testbit_moder_output by lia.
  rewrite testbit_to_uint32, Z.land_spec by lia.
  rewrite testbit_to_uint32, Z.lnot_spec, testbit_moder_mask by lia.
  destruct (Z.ltb_spec k 32); [|lia]. cbn [andb].
  destruct (Z.leb_spec 6 k), (Z.leb_spec k 9),
    (Z.eqb_spec k 6), (Z.eqb_spec k 8), (Z.testbit (GPIOB_MODER p) k);
    try reflexivity; lia.
Qed.

Lemma LED_config_ahbenr_bits (en : Z) (p : port_regs) (k : Z) :
  0 <= k < 32 ->
  Z.testbit (RCC_AHBENR (LED_config en p)) k =
    Z.testbit (RCC_AHBENR p) k || Z.testbit en k.
Proof.
  intros Hk. unfold LED_config. cbn [RCC_AHBENR].
  rewrite testbit_to_uint32, Z.lor_spec by lia.
  destruct (Z.ltb_spec k 32); [reflexivity|lia].
Qed.

(** X3.  [LED_config] puts both mode fields MODER[7:6] (PB3) and
    MODER[9:8] (PB4) to 01, general-purpose output, and leaves every
    other bit of MODER; in the clock-enable register it sets the bits of
    the enable mask and clears none.  Applying it again changes
    nothing. *)
Theorem LED_config_sets_PB3_and_PB4_to_output (en : Z) (p : port_regs) :
  (forall k : Z, 0 <= k < 32 ->
     Z.testbit (GPIOB_MODER (LED_config en p)) k =
       if (k =? 6) || (k =? 8) then true
       else if (k =? 7) || (k =? 9) then false
       else Z.testbit (GPIOB_MODER p) k)
  /\ (forall k : Z, 0 <= k < 32 ->
     Z.testbit (RCC_AHBENR (LED_config en p)) k =
       Z.testbit (RCC_AHBENR p) k || Z.testbit en k)
  /\ LED_config en (LED_config en p) = LED_config en p.
Proof.
  split; [|split].
  - intros k Hk. rewrite LED_config_moder_bits by exact Hk.
    destruct (Z.leb_spec 6 k), (Z.leb_spec k 9),
      (Z.eqb_spec k 6), (Z.eqb_spec k 7), (Z.eqb_spec k 8), (Z.eqb_spec k 9);
      try reflexivity; lia.
  - intros k Hk. apply LED_config_ahbenr_bits, Hk.
  - assert (Hm : GPIOB_MODER (LED_config en (LED_config en p))
                 = GPIOB_MODER (LED_config en p)).
    { apply uint32_eq_bits; try apply to_uint32_range.
      intros k Hk. rewrite !LED_config_moder_bits by exact Hk.
      destruct ((6 <=? k) && (k <=? 9)); reflexivity. }
    assert (Ha : RCC_AHBENR (LED_config en (LED_config en p))
                 = RCC_AHBENR (LED_config en p)).
    { apply uint32_eq_bits; try apply to_uint32_range.
      intros k Hk. rewrite !LED_config_ahbenr_bits by exact Hk.
      destruct (Z.testbit (RCC_AHBENR p) k), (Z.testbit en k); reflexivity. }
    destruct (LED_config en (LED_config en p)), (LED_config en p).
    cbn in Hm, Ha. subst. reflexivity.
Qed.

(** ** Availability and the periodic handler, on any device *)

Section Periods.

Context {device : Type} `{!I2CSlave device}.

Lemma I2C1_Read_one (slave addr : Z) (b : bus device) :
  I2C1_Read slave addr 1 b =
    Done [to_uint8 (slave_read slave addr (dev b)).1]
         (mkBus (slave_read slave addr (dev b)).2
                (wire b ++ [BusRead slave addr 1])).
Proof.
  unfold I2C1_Read. change (Z.to_nat (to_uint8 1)) with 1%nat.
  change (to_uint8 1) with 1. cbn [clock_in].
  destruct (slave_read slave addr (dev b)) as [x d]. reflexivity.
Qed.

Lemma pointer_difference_range (wb rb : Z) :
  let write_ptr := to_uint8 (Z.land wb 0x1F) in
  let read_ptr := to_uint8 (Z.land rb 0x1F) in
  0 <= (if write_ptr >=? read_ptr
        then to_uint8 (write_ptr - read_ptr)
        else to_uint8 ((32 - read_ptr) + write_ptr)) <= 31.
Proof.
  cbv zeta. rewrite !mask_5_bits.
  pose proof (Z.mod_pos_bound wb 32 ltac:(lia)) as Hw.
  pose proof (Z.mod_pos_bound rb 32 ltac:(lia)) as Hr.
  rewrite (to_uint8_id (wb mod 32)), (to_uint8_id (rb mod 32))
    by (unfold is_uint8; lia).
  destruct (Z.geb_spec (wb mod 32) (rb mod 32));
    rewrite to_uint8_id by (unfold is_uint8; lia); lia.
Qed.

(** The availability query always returns: a count in [0, 31] after the
    two pointer reads, the device having seen nothing else. *)
Lemma GetNumAvailableSamples_run (b : bus device) :
  exists n : Z,
    0 <= n <= 31
    /\ MAX30101_GetNumAvailableSamples b =
       Done n
         (mkBus (slave_read SENSOR_ADDR FIFO_READPTR
                   (slave_read SENSOR_ADDR FIFO_WRITPTR (dev b)).2).2
                (wire b ++ [BusRead SENSOR_ADDR FIFO_WRITPTR 1;
                            BusRead SENSOR_ADDR FIFO_READPTR 1])).
Proof.
  unfold MAX30101_GetNumAvailableSamples, bind, ret.
  rewrite I2C1_Read_one. rewrite I2C1_Read_one. cbn [nth dev wire].
  eexists. split; [apply pointer_difference_range|].
  rewrite <- app_assoc. reflexivity.
Qed.

(** X4.  [MAX30101_GetNumAvailableSamples] returns on every device, with
    a count in [0, 31]; all it puts on the wire is a one-byte read of the
    write-pointer register followed by a one-byte read of the
    read-pointer register. *)
Theorem GetNumAvailableSamples_two_reads (b : bus device) :
  exists (n : Z) (b' : bus device),
    MAX30101_GetNumAvailableSamples b = Done n b'
    /\ 0 <= n <= 31
    /\ emitted MAX30101_GetNumAvailableSamples b =
       [BusRead SENSOR_ADDR FIFO_WRITPTR 1; BusRead SENSOR_ADDR FIFO_READPTR 1].
Proof.
  destruct (GetNumAvailableSamples_run b) as [n [Hn Hrun]].
  eexists n, _. split; [exact Hrun|]. split; [exact Hn|].
  apply emitted_extends. rewrite Hrun. reflexivity.
Qed.

Lemma SysTick_Handler_idle (g : globals) (b b1 : bus device) :
  MAX30101_GetNumAvailableSamples b = Done 0 b1 ->
  SysTick_Handler g b =
    Done (LED_Toggle (mkGlobals (to_uint32 (ticks g + 1))
                                (MAX30101_SampleCurrentBuffer g) (GPIOB_ODR g)))
         b1.
Proof.
  intros Hget. unfold SysTick_Handler, bind, ret. rewrite Hget. reflexivity.
Qed.

(** X5.  [SysTick_Handler] returns exactly when the count the sensor
    reports fits the result buffer: with [n] the value of the
    availability query, the handler completes if and only if [n] is at
    most the number of entries of [MAX30101_SampleCurrentBuffer]. *)
Theorem SysTick_Handler_completes_iff_count_fits (g : globals) (b : bus device) :
  exists n : Z,
    value (MAX30101_GetNumAvailableSamples b) = Some n
    /\ 0 <= n <= 31
    /\ completes (SysTick_Handler g b) =
       (n <=? Z.of_nat (length (MAX30101_SampleCurrentBuffer g))).
Proof.
  destruct (GetNumAvailableSamples_run b) as [n [Hn Hrun]].
  exists n. split; [rewrite Hrun; reflexivity|]. split; [exact Hn|].
  destruct (Z.eq_dec n 0) as [->|Hnz].
  - rewrite (SysTick_Handler_idle g b _ Hrun).
    symmetry. apply Z.leb_le. lia.
  - rewrite (SysTick_Handler_passes_count g b _ n Hrun) by lia.
    destruct (Z.leb_spec n (Z.of_nat (length (MAX30101_SampleCurrentBuffer g))))
      as [Hle|Hgt].
    + rewrite ReadFIFO_Current_done
        by (rewrite to_uint8_id by (unfold is_uint8; lia); lia).
      reflexivity.
    + rewrite ReadFIFO_Current_fault
        by (rewrite to_uint8_id by (unfold is_uint8; lia); lia).
      reflexivity.
Qed.

(** X6.  A period in which the reported count [n] fits the buffer: the
    handler returns with the tick counter advanced by one modulo 2^32,
    bit 3 of the output register inverted by [LED_Toggle], and the buffer
    as [MAX30101_ReadFIFO_Current] with [n] leaves it: same length, every
    entry from index [n] on still holding its previous value, and with
    [n = 0] not touched at all.  On the bus the period costs the two
    pointer reads and [n] data-port bursts. *)
Theorem SysTick_Handler_period (g : globals) (b b1 : bus device) (n : Z) :
  MAX30101_GetNumAvailableSamples b = Done n b1 ->
  n <= Z.of_nat (length (MAX30101_SampleCurrentBuffer g)) ->
  exists (buf : list MAX30101_SampleCurrent) (b2 : bus device),
    SysTick_Handler g b =
      Done (mkGlobals (to_uint32 (ticks g + 1)) buf
                      (to_uint32 (Z.lxor (GPIOB_ODR g) (Z.shiftl 1 3)))) b2
    /\ MAX30101_ReadFIFO_Current (MAX30101_SampleCurrentBuffer g) n b1
       = Done buf b2
    /\ length buf = length (MAX30101_SampleCurrentBuffer g)
    /\ (forall j : nat, n <= Z.of_nat j ->
          buf !! j = MAX30101_SampleCurrentBuffer g !! j)
    /\ (n = 0 -> buf = MAX30101_SampleCurrentBuffer g /\ b2 = b1)
    /\ wire b2 = wire b1
                 ++ replicate (Z.to_nat n) (BusRead SENSOR_ADDR FIFO_DATAREG 6).
Proof.
  intros Hget Hfit.
  destruct (GetNumAvailableSamples_run b) as [n' [Hn Hrun]].
  rewrite Hget in Hrun. injection Hrun as Hnn _. subst n'.
  assert (Hk : to_uint8 n = n) by (apply to_uint8_id; unfold is_uint8; lia).
  pose proof (ReadFIFO_Current_done (MAX30101_SampleCurrentBuffer g) n b1
                ltac:(rewrite Hk; lia)) as Hread.
  rewrite Hk in Hread.
  pose proof (length_run_steps (fun _ => burst) (Z.to_nat n) 0 b1) as Hlen.
  eexists _, _. split; [|split; [exact Hread|]].
  - destruct (Z.eq_dec n 0) as [->|Hnz].
    + rewrite (SysTick_Handler_idle g b _ Hget). reflexivity.
    + rewrite (SysTick_Handler_passes_count g b _ n Hget) by lia.
      rewrite Hread. reflexivity.
  - split; [apply length_fill|].
    split; [|split].
    + intros j Hj. apply lookup_fill_above. rewrite length_map, Hlen. lia.
    + intros ->. split; reflexivity.
    + apply bursts_wire.
Qed.

(** X7.  Whatever the device and however the period ends,
    [SysTick_Handler] never writes to the sensor: what it puts on the
    wire is the two pointer reads followed by at most 31 six-byte reads
    of the FIFO data port. *)
Theorem SysTick_Handler_only_reads (g : globals) (b : bus device) :
  exists k : nat,
    (k <= 31)%nat
    /\ emitted (SysTick_Handler g) b =
       [BusRead SENSOR_ADDR FIFO_WRITPTR 1; BusRead SENSOR_ADDR FIFO_READPTR 1]
       ++ replicate k (BusRead SENSOR_ADDR FIFO_DATAREG 6)
    /\ forallb is_read (emitted (SysTick_Handler g) b) = true.
Proof.
  destruct (GetNumAvailableSamples_run b) as [n [Hn Hrun]].
  set (b1 := mkBus _ _) in Hrun.
  assert (Hw : exists k : nat,
             (k <= 31)%nat
             /\ wire (final (SysTick_Handler g b)) =
                wire b1 ++ replicate k (BusRead SENSOR_ADDR FIFO_DATAREG 6)).
  { destruct (Z.eq_dec n 0) as [->|Hnz].
    - exists 0%nat. split; [lia|].
      rewrite (SysTick_Handler_idle g b _ Hrun). cbn [final replicate].
      rewrite app_nil_r. reflexivity.
    - rewrite (SysTick_Handler_passes_count g b _ n Hrun) by lia.
      assert (Hk : to_uint8 n = n) by (apply to_uint8_id; unfold is_uint8; lia).
      destruct (decide (Z.to_nat n <= length (MAX30101_SampleCurrentBuffer g))%nat)
        as [Hle|Hgt].
      + exists (Z.to_nat n). split; [lia|].
        rewrite ReadFIFO_Current_done by (rewrite Hk; exact Hle).
        rewrite Hk. cbn [final]. apply bursts_wire.
      + exists (S (length (MAX30101_SampleCurrentBuffer g))). split; [lia|].
        rewrite ReadFIFO_Current_fault by (rewrite Hk; lia).
        cbn [final]. apply bursts_wire. }
  destruct Hw as [k [Hk Hwire]]. exists k. split; [exact Hk|].
  assert (Hem : emitted (SysTick_Handler g) b =
                [BusRead SENSOR_ADDR FIFO_WRITPTR 1;
                 BusRead SENSOR_ADDR FIFO_READPTR 1]
                ++ replicate k (BusRead SENSOR_ADDR FIFO_DATAREG 6)).
  { apply emitted_extends. rewrite Hwire. subst b1. cbn [wire].
    rewrite <- app_assoc. reflexivity. }
  split; [exact Hem|]. rewrite Hem.
  rewrite forallb_app. cbn [forallb is_read andb].
  clear. induction k as [|k IH]; [reflexivity|exact IH].
Qed.

End Periods.

(** ** The scale of the conversion *)

Lemma climbs_spec (v : Z -> option Q) :
  forall (fuel : nat) (c : Z) (prev : Q),
    climbs v fuel c prev = true ->
    v (c - 1) = Some prev ->
    forall x : Z, c - 1 <= x < c - 1 + Z.of_nat fuel ->
      exists p q : Q, v x = Some p /\ v (x + 1) = Some q /\ Qlt p q.
Proof.
  induction fuel as [|fuel IH]; intros c prev Hall Hprev x Hx; [lia|].
  cbn [climbs] in Hall.
  destruct (v c) as [q|] eqn:Hq; [|discriminate].
  apply andb_true_iff in Hall as [Hstep Hrest].
  destruct (Z.eq_dec x (c - 1)) as [->|Hne].
  - exists prev, q. replace (c - 1 + 1) with c by lia.
    split; [exact Hprev|]. split; [exact Hq|].
    apply Qnot_le_lt. intros Hle.
    apply Qle_bool_iff in Hle. rewrite Hle in Hstep. discriminate.
  - apply (IH (c + 1) q Hrest); [|lia].
    replace (c + 1 - 1) with c by lia. exact Hq.
Qed.

(** Checked count by count: from 0 to 65535 every current is finite and
    strictly above the current of the count before. *)
Lemma currents_climb :
  climbs (fun c => F32.to_Q (current_of_count c)) (Z.to_nat 65535) 1 0%Q = true.
Proof. vm_compute. reflexivity. Qed.

Lemma steps_up_at (c : Z) :
  0 <= c < 65535 -> finite_lt (current_of_count c) (current_of_count (c + 1)).
Proof.
  intros Hc.
  destruct (climbs_spec _ _ 1 0%Q currents_climb eq_refl c ltac:(lia))
    as [p [q [Hp [Hq Hlt]]]].
  unfold finite_lt. rewrite Hp, Hq. exact Hlt.
Qed.

Lemma finite_lt_trans (x y z : float32_t) :
  finite_lt x y -> finite_lt y z -> finite_lt x z.
Proof.
  unfold finite_lt.
  destruct (F32.to_Q x), (F32.to_Q y), (F32.to_Q z); try tauto.
  apply Qlt_trans.
Qed.

Lemma current_of_count_increasing (c1 c2 : Z) :
  0 <= c1 -> c1 < c2 -> c2 <= 65535 ->
  finite_lt (current_of_count c1) (current_of_count c2).
Proof.
  intros H0 Hlt Hmax.
  replace c2 with (c1 + 1 + Z.of_nat (Z.to_nat (c2 - c1 - 1))) in * by lia.
  induction (Z.to_nat (c2 - c1 - 1)) as [|k IH].
  - rewrite Z.add_0_r. apply steps_up_at. lia.
  - eapply finite_lt_trans; [apply IH; lia|].
    replace (c1 + 1 + Z.of_nat (S k)) with (c1 + 1 + Z.of_nat k + 1) by lia.
    apply steps_up_at. lia.
Qed.

Lemma current_of_count_zero : current_of_count 0 = S754_zero false.
Proof. reflexivity. Qed.

Lemma current_of_count_max :
  finite_within 511 512 (current_of_count 65535).
Proof. vm_compute. split; discriminate || reflexivity. Qed.

Lemma current_of_count_range (c : Z) :
  is_uint16 c -> finite_within 0 512 (current_of_count c).
Proof.
  unfold is_uint16. intros Hc.
  pose proof current_of_count_max as Hmax.
  destruct (Z.eq_dec c 0) as [->|Hnz].
  { rewrite current_of_count_zero. cbn. split; [apply Qle_refl|reflexivity]. }
  pose proof (current_of_count_increasing 0 c ltac:(lia) ltac:(lia) ltac:(lia))
    as Hlow.
  rewrite current_of_count_zero in Hlow.
  destruct (Z.eq_dec c 65535) as [->|Hne].
  { unfold finite_within in *.
    destruct (F32.to_Q (current_of_count 65535)) as [q|]; [|contradiction].
    destruct Hmax as [Hge Hlt]. split; [|exact Hlt].
    eapply Qle_trans; [|exact Hge]. discriminate. }
  pose proof (current_of_count_increasing c 65535 ltac:(lia) ltac:(lia) ltac:(lia))
    as Hhigh.
  unfold finite_lt, finite_within in *. cbn [F32.to_Q] in Hlow.
  destruct (F32.to_Q (current_of_count c)) as [q|]; [|contradiction].
  destruct (F32.to_Q (current_of_count 65535)) as [m|]; [|contradiction].
  split; [apply Qlt_le_weak, Hlow|].
  eapply Qlt_trans; [exact Hhigh|apply Hmax].
Qed.

Lemma ConvertUint16ToCurrent_channels (s : MAX30101_SampleData) :
  MAX30101_ConvertUint16ToCurrent s =
    mkSampleCurrent (current_of_count (red16 s)) (current_of_count (ir16 s))
                    (current_of_count (green16 s)).
Proof. reflexivity. Qed.

Lemma scaled_current_of_count (hi lo : Z) :
  scaled hi lo = current_of_count (hi * 256 + lo).
Proof.
  unfold scaled, current_of_count.
  rewrite (proj1 MAX30101_CURRENT_LSB_NA_value). reflexivity.
Qed.

(** X8.  [MAX30101_ConvertUint16ToCurrent] is strictly increasing in
    each channel: of two samples of 16-bit counts, the one with the
    larger count in a channel gets the strictly larger current in that
    channel, both finite.  Different counts never share a current. *)
Theorem ConvertUint16ToCurrent_strictly_increasing (s1 s2 : MAX30101_SampleData) :
  is_uint16 (red16 s1) -> is_uint16 (ir16 s1) -> is_uint16 (green16 s1) ->
  is_uint16 (red16 s2) -> is_uint16 (ir16 s2) -> is_uint16 (green16 s2) ->
  (red16 s1 < red16 s2 ->
   finite_lt (red_nA (MAX30101_ConvertUint16ToCurrent s1))
             (red_nA (MAX30101_ConvertUint16ToCurrent s2)))
  /\ (ir16 s1 < ir16 s2 ->
      finite_lt (ir_nA (MAX30101_ConvertUint16ToCurrent s1))
                (ir_nA (MAX30101_ConvertUint16ToCurrent s2)))
  /\ (green16 s1 < green16 s2 ->
      finite_lt (green_nA (MAX30101_ConvertUint16ToCurrent s1))
                (green_nA (MAX30101_ConvertUint16ToCurrent s2))).
Proof.
  unfold is_uint16. intros Hr1 Hi1 Hg1 Hr2 Hi2 Hg2.
  rewrite !ConvertUint16ToCurrent_channels. cbn [red_nA ir_nA green_nA].
  repeat split; intros Hlt; apply current_of_count_increasing; lia.
Qed.

(** X9.  For 16-bit counts every channel of
    [MAX30101_ConvertUint16ToCurrent] is a finite value from 0 up to,
    not including, 512 nanoamps, a quarter of the 2048 of
    [MAX30101_CURRENT_FULLSCALE]; the count 0 gives exactly +0.0. *)
Theorem ConvertUint16ToCurrent_below_512 (s : MAX30101_SampleData) :
  is_uint16 (red16 s) -> is_uint16 (ir16 s) -> is_uint16 (green16 s) ->
  (finite_within 0 512 (red_nA (MAX30101_ConvertUint16ToCurrent s))
   /\ finite_within 0 512 (ir_nA (MAX30101_ConvertUint16ToCurrent s))
   /\ finite_within 0 512 (green_nA (MAX30101_ConvertUint16ToCurrent s)))
  /\ (red16 s = 0 ->
      red_nA (MAX30101_ConvertUint16ToCurrent s) = S754_zero false)
  /\ (ir16 s = 0 ->
      ir_nA (MAX30101_ConvertUint16ToCurrent s) = S754_zero false)
  /\ (green16 s = 0 ->
      green_nA (MAX30101_ConvertUint16ToCurrent s) = S754_zero false).
Proof.
  intros Hr Hi Hg.
  rewrite ConvertUint16ToCurrent_channels. cbn [red_nA ir_nA green_nA].
  split; [repeat split; apply current_of_count_range; assumption|].
  repeat split; intros ->; reflexivity.
Qed.

(** ** The FIFO reads against the byte stream of the data port *)

Lemma lookup_map_Some {A B : Type} (f : A -> B) (l : list A) (i : nat) (x : A) :
  l !! i = Some x -> map f l !! i = Some (f x).
Proof.
  revert i. induction l as [|y l IH]; intros [|i] Hx; try discriminate.
  - injection Hx as ->. reflexivity.
  - apply IH, Hx.
Qed.

(** In a list of six-byte bursts laid end to end, byte [j] of burst [i]
    is byte [6 i + j] of the whole. *)
Lemma nth_concat_bursts (datas : list (list Z)) :
  Forall (fun data => length data = 6%nat) datas ->
  forall i j : nat,
    (i < length datas)%nat -> (j < 6)%nat ->
    nth (6 * i + j) (concat datas) 0 = nth j (nth i datas []) 0.
Proof.
  induction 1 as [|data datas Hlen _ IH]; intros i j Hi Hj; [simpl in Hi; lia|].
  cbn [concat]. destruct i as [|i].
  - cbn [nth]. rewrite Nat.mul_0_r, Nat.add_0_l.
    apply app_nth1. lia.
  - replace (6 * S i + j)%nat with (length data + (6 * i + j))%nat by lia.
    rewrite app_nth2_plus. cbn [nth]. apply IH; [simpl in Hi; lia|exact Hj].
Qed.

Section Stream.

Context {device : Type} `{!I2CSlave device}.

Lemma clock_in_app (slave addr : Z) (k2 : nat) :
  forall (k1 : nat) (d : device),
    clock_in slave addr (k1 + k2) d =
      ((clock_in slave addr k1 d).1
         ++ (clock_in slave addr k2 (clock_in slave addr k1 d).2).1,
       (clock_in slave addr k2 (clock_in slave addr k1 d).2).2).
Proof.
  induction k1 as [|k1 IH]; intros d.
  - cbn. destruct (clock_in slave addr k2 d). reflexivity.
  - cbn [Nat.add clock_in].
    destruct (slave_read slave addr d) as [x d1].
    rewrite IH.
    destruct (clock_in slave addr k1 d1) as [xs d2]. cbn [fst snd].
    destruct (clock_in slave addr k2 d2) as [ys d3]. reflexivity.
Qed.

Lemma burst_clock_in (b : bus device) :
  (burst b).1 = (clock_in SENSOR_ADDR FIFO_DATAREG 6 (dev b)).1
  /\ dev (burst b).2 = (clock_in SENSOR_ADDR FIFO_DATAREG 6 (dev b)).2.
Proof.
  unfold burst.
  destruct (clock_in SENSOR_ADDR FIFO_DATAREG 6 (dev b)). split; reflexivity.
Qed.

(** [n] bursts deliver, end to end, the first [6 n] bytes of the data
    port and leave the device where those [6 n] bytes leave it. *)
Lemma bursts_stream :
  forall (n i : nat) (b : bus device),
    concat (run_steps (fun _ => burst) n i b).1
      = (clock_in SENSOR_ADDR FIFO_DATAREG (6 * n) (dev b)).1
    /\ dev (run_steps (fun _ => burst) n i b).2
      = (clock_in SENSOR_ADDR FIFO_DATAREG (6 * n) (dev b)).2
    /\ Forall (fun data => length data = 6%nat)
              (run_steps (fun _ => burst) n i b).1.
Proof.
  induction n as [|n IH]; intros i b.
  - cbn. repeat split. constructor.
  - replace (6 * S n)%nat with (6 + 6 * n)%nat by lia.
    rewrite clock_in_app.
    destruct (burst_clock_in b) as [Hdata Hdev].
    pose proof (clock_in_length SENSOR_ADDR FIFO_DATAREG 6 (dev b)) as Hsix.
    cbn [run_steps]. destruct (burst b) as [data b1]. cbn [fst snd] in *.
    destruct (IH (S i) b1) as [Hcat [Hd Hall]].
    destruct (run_steps (fun _ => burst) n (S i) b1) as [datas b2].
    cbn [fst snd concat] in *.
    rewrite <- Hdev, <- Hdata, Hcat, Hd.
    repeat split. constructor; [rewrite Hdata; exact Hsix|exact Hall].
Qed.

(** Burst [i] of [n], byte by byte, inside the stream. *)
Lemma bursts_entry (n i : nat) (b : bus device) :
  (i < n)%nat ->
  exists data : list Z,
    (run_steps (fun _ => burst) n 0 b).1 !! i = Some data
    /\ Forall is_uint8 data
    /\ forall j : nat, (j < 6)%nat ->
         nth j data 0 =
         nth (6 * i + j) (clock_in SENSOR_ADDR FIFO_DATAREG (6 * n) (dev b)).1 0.
Proof.
  intros Hi.
  destruct (bursts_stream n 0 b) as [Hcat [_ Hall]].
  pose proof (length_run_steps (fun _ => burst) n 0 b) as Hlen.
  pose proof (bursts_uint8 n 0 b) as Hbytes.
  destruct (lookup_lt_is_Some_2 (run_steps (fun _ => burst) n 0 b).1 i
              ltac:(lia)) as [data Hdata].
  exists data. split; [exact Hdata|]. split.
  - eapply Forall_lookup_1; [exact Hbytes|exact Hdata].
  - intros j Hj. rewrite <- Hcat.
    rewrite nth_concat_bursts by (assumption || lia).
    rewrite (nth_lookup_Some _ _ [] _ Hdata). reflexivity.
Qed.

Lemma stream_uint8 (k : nat) (d : device) (j : nat) :
  is_uint8 (nth j (clock_in SENSOR_ADDR FIFO_DATAREG k d).1 0).
Proof. apply nth_uint8, clock_in_uint8. Qed.

(** X10.  [MAX30101_ReadFIFO] lays the byte stream of the data port out
    sample by sample: asked for [n <= 255] samples that fit the
    destination, it returns with entry [i], for every [i < n], holding
    bytes [6 i] to [6 i + 5] of the stream as the (MSB, LSB) pairs of
    red, IR and green, in arrival order; the device is left where
    [6 n] bytes clocked from the data port leave it. *)
Theorem ReadFIFO_stores_the_stream (raw : list MAX30101_Sample) (n : Z)
  (b : bus device) :
  0 <= n <= 255 -> n <= Z.of_nat (length raw) ->
  let stream :=
    (clock_in SENSOR_ADDR FIFO_DATAREG (6 * Z.to_nat n) (dev b)).1 in
  exists (raw' : list MAX30101_Sample) (b' : bus device),
    MAX30101_ReadFIFO raw n b = Done raw' b'
    /\ dev b' = (clock_in SENSOR_ADDR FIFO_DATAREG (6 * Z.to_nat n) (dev b)).2
    /\ forall i : nat, (i < Z.to_nat n)%nat ->
         raw' !! i =
           Some (mkSample
                   (nth (6 * i) stream 0, nth (6 * i + 1) stream 0)
                   (nth (6 * i + 2) stream 0, nth (6 * i + 3) stream 0)
                   (nth (6 * i + 4) stream 0, nth (6 * i + 5) stream 0)).
Proof.
  intros Hn Hfit stream.
  assert (Hk : to_uint8 n = n) by (apply to_uint8_id; unfold is_uint8; lia).
  pose proof (ReadFIFO_done raw n b ltac:(rewrite Hk; lia)) as Hread.
  rewrite Hk in Hread.
  eexists _, _. split; [exact Hread|]. split.
  - apply bursts_stream.
  - intros i Hi.
    destruct (bursts_entry (Z.to_nat n) i b Hi) as [data [Hdata [_ Hnth]]].
    pose proof (length_run_steps (fun _ => burst) (Z.to_nat n) 0 b) as Hlen.
    rewrite (lookup_fill_within _ 0 i raw)
      by (rewrite length_map, Hlen; lia).
    rewrite (lookup_map_Some raw_of_bytes _ i data Hdata).
    unfold raw_of_bytes. rewrite !Hnth by lia.
    rewrite Nat.add_0_r. reflexivity.
Qed.

Lemma current_of_bytes_scaled (data : list Z) :
  Forall is_uint8 data ->
  current_of_bytes data =
    mkSampleCurrent (scaled (nth 0 data 0) (nth 1 data 0))
                    (scaled (nth 2 data 0) (nth 3 data 0))
                    (scaled (nth 4 data 0) (nth 5 data 0)).
Proof.
  intros Hall. rewrite <- (current_of_bytes_two_stage data Hall).
  unfold MAX30101_ConvertSampleToUint16, raw_of_bytes.
  cbn [red ir green fst snd].
  rewrite !count_of_pair by (apply nth_uint8, Hall).
  rewrite ConvertUint16ToCurrent_channels. cbn [red16 ir16 green16].
  rewrite !scaled_current_of_count. reflexivity.
Qed.

Lemma scaled_range (hi lo : Z) :
  is_uint8 hi -> is_uint8 lo -> finite_within 0 512 (scaled hi lo).
Proof.
  intros Hhi Hlo. rewrite scaled_current_of_count.
  apply current_of_count_range, combine_bytes_range; assumption.
Qed.

(** X11.  [MAX30101_ReadFIFO_Current] turns the same stream into
    currents: asked for [n <= 255] samples that fit the destination, it
    returns with entry [i], for every [i < n], holding per channel the
    binary32 product of the count made of stream bytes
    [6 i + 2 c] (MSB) and [6 i + 2 c + 1] (LSB) with the LSB constant;
    every value it stores is finite and lies from 0 up to, not
    including, 512 nanoamps. *)
Theorem ReadFIFO_Current_stores_scaled_stream
  (samples : list MAX30101_SampleCurrent) (n : Z) (b : bus device) :
  0 <= n <= 255 -> n <= Z.of_nat (length samples) ->
  let stream :=
    (clock_in SENSOR_ADDR FIFO_DATAREG (6 * Z.to_nat n) (dev b)).1 in
  exists (samples' : list MAX30101_SampleCurrent) (b' : bus device),
    MAX30101_ReadFIFO_Current samples n b = Done samples' b'
    /\ dev b' = (clock_in SENSOR_ADDR FIFO_DATAREG (6 * Z.to_nat n) (dev b)).2
    /\ forall i : nat, (i < Z.to_nat n)%nat ->
         exists s : MAX30101_SampleCurrent,
           samples' !! i = Some s
           /\ s = mkSampleCurrent
                    (scaled (nth (6 * i) stream 0) (nth (6 * i + 1) stream 0))
                    (scaled (nth (6 * i + 2) stream 0) (nth (6 * i + 3) stream 0))
                    (scaled (nth (6 * i + 4) stream 0) (nth (6 * i + 5) stream 0))
           /\ finite_within 0 512 (red_nA s)
           /\ finite_within 0 512 (ir_nA s)
           /\ finite_within 0 512 (green_nA s).
Proof.
  intros Hn Hfit stream.
  assert (Hk : to_uint8 n = n) by (apply to_uint8_id; unfold is_uint8; lia).
  pose proof (ReadFIFO_Current_done samples n b ltac:(rewrite Hk; lia)) as Hread.
  rewrite Hk in Hread.
  eexists _, _. split; [exact Hread|]. split.
  - apply bursts_stream.
  - intros i Hi.
    destruct (bursts_entry (Z.to_nat n) i b Hi) as [data [Hdata [Hbytes Hnth]]].
    pose proof (length_run_steps (fun _ => burst) (Z.to_nat n) 0 b) as Hlen.
    eexists. split.
    + rewrite (lookup_fill_within _ 0 i samples)
        by (rewrite length_map, Hlen; lia).
      apply (lookup_map_Some current_of_bytes _ i data Hdata).
    + rewrite (current_of_bytes_scaled data Hbytes).
      rewrite !Hnth by lia. rewrite Nat.add_0_r. fold stream.
      split; [reflexivity|]. cbn [red_nA ir_nA green_nA].
      repeat split; apply scaled_range; apply stream_uint8.
Qed.

End Stream.

(** ** Configuration, seen from the wire and from the device *)

Section Profiles.

Context {device : Type} `{!I2CSlave device}.

Lemma InitSPO2Lite_run (b : bus device) :
  MAX30101_InitSPO2Lite b =
    Done tt
      (mkBus
         (slave_write SENSOR_ADDR DIE_TEMPCFG 0x01
         (slave_write SENSOR_ADDR LED2_PAMPLI 0x18
         (slave_write SENSOR_ADDR LED1_PAMPLI 0x18
         (slave_write SENSOR_ADDR FIFO_WRITPTR 0x0
         (slave_write SENSOR_ADDR FIFO_READPTR 0x0
         (slave_write SENSOR_ADDR SPO2_CONFIG 0x23
         (slave_write SENSOR_ADDR MODE_CONFIG 0x03
         (slave_write SENSOR_ADDR FIFO_CONFIG 0x4F (dev b)))))))))
         (wire b ++
          [BusWrite SENSOR_ADDR FIFO_CONFIG 0x4F;
           BusWrite SENSOR_ADDR MODE_CONFIG 0x03;
           BusWrite SENSOR_ADDR SPO2_CONFIG 0x23;
           BusWrite SENSOR_ADDR FIFO_READPTR 0x0;
           BusWrite SENSOR_ADDR FIFO_WRITPTR 0x0;
           BusWrite SENSOR_ADDR LED1_PAMPLI 0x18;
           BusWrite SENSOR_ADDR LED2_PAMPLI 0x18;
           BusWrite SENSOR_ADDR DIE_TEMPCFG 0x01])).
Proof.
  unfold MAX30101_InitSPO2Lite, bind, I2C1_Write. cbn [dev wire].
  rewrite <- !app_assoc. reflexivity.
Qed.

Lemma InitMuscleOx_run (ledPower : Z) (b : bus device) :
  MAX30101_InitMuscleOx ledPower b =
    Done tt
      (mkBus
         (slave_write SENSOR_ADDR DIE_TEMPCFG 0x01
         (slave_write SENSOR_ADDR LED3_PAMPLI (to_uint8 ledPower)
         (slave_write SENSOR_ADDR LED2_PAMPLI (to_uint8 ledPower)
         (slave_write SENSOR_ADDR LED1_PAMPLI (to_uint8 ledPower)
         (slave_write SENSOR_ADDR FIFO_WRITPTR 0x0
         (slave_write SENSOR_ADDR FIFO_READPTR 0x0
         (slave_write SENSOR_ADDR SPO2_CONFIG 0x26
         (slave_write SENSOR_ADDR MODE_CONFIG 0x07
         (slave_write SENSOR_ADDR FIFO_CONFIG 0x4F (dev b))))))))))
         (wire b ++
          [BusWrite SENSOR_ADDR FIFO_CONFIG 0x4F;
           BusWrite SENSOR_ADDR MODE_CONFIG 0x07;
           BusWrite SENSOR_ADDR SPO2_CONFIG 0x26;
           BusWrite SENSOR_ADDR FIFO_READPTR 0x0;
           BusWrite SENSOR_ADDR FIFO_WRITPTR 0x0;
           BusWrite SENSOR_ADDR LED1_PAMPLI (to_uint8 ledPower);
           BusWrite SENSOR_ADDR LED2_PAMPLI (to_uint8 ledPower);
           BusWrite SENSOR_ADDR LED3_PAMPLI (to_uint8 ledPower);
           BusWrite SENSOR_ADDR DIE_TEMPCFG 0x01])).
Proof.
  unfold MAX30101_InitMuscleOx, bind, I2C1_Write. cbn [dev wire].
  rewrite <- !app_assoc.
  rewrite !(to_uint8_id (to_uint8 ledPower)) by apply to_uint8_range.
  reflexivity.
Qed.

Lemma read_after_write_same (a v : Z) (d : device) :
  register_file device -> a <> FIFO_DATAREG ->
  slave_read SENSOR_ADDR a (slave_write SENSOR_ADDR a v d)
  = (v, slave_write SENSOR_ADDR a v d).
Proof.
  intros [Hquiet [Hback _]] Ha.
  rewrite (surjective_pairing (slave_read SENSOR_ADDR a _)).
  rewrite Hquiet, Hback by exact Ha. reflexivity.
Qed.

Lemma read_after_write_other (a a' v v' : Z) (d : device) :
  register_file device -> a <> a' -> a <> FIFO_DATAREG ->
  slave_read SENSOR_ADDR a d = (v, d) ->
  slave_read SENSOR_ADDR a (slave_write SENSOR_ADDR a' v' d)
  = (v, slave_write SENSOR_ADDR a' v' d).
Proof.
  intros [Hquiet [_ Hother]] Hne Ha Hd.
  rewrite (surjective_pairing (slave_read SENSOR_ADDR a _)).
  rewrite Hquiet, Hother, Hd by assumption. reflexivity.
Qed.

Lemma no_samples_when_pointers_read_zero (b : bus device) :
  slave_read SENSOR_ADDR FIFO_WRITPTR (dev b) = (0, dev b) ->
  slave_read SENSOR_ADDR FIFO_READPTR (dev b) = (0, dev b) ->
  MAX30101_GetNumAvailableSamples b =
    Done 0 (mkBus (dev b)
                  (wire b ++ [BusRead SENSOR_ADDR FIFO_WRITPTR 1;
                              BusRead SENSOR_ADDR FIFO_READPTR 1])).
Proof.
  intros Hw Hr.
  unfold MAX30101_GetNumAvailableSamples, bind, ret.
  rewrite I2C1_Read_one, Hw. cbn [fst snd].
  rewrite I2C1_Read_one. cbn [dev wire]. rewrite Hr. cbn [fst snd nth].
  rewrite <- app_assoc. reflexivity.
Qed.


(** X13.  The configuration applied last decides the mode: whatever went
    over the bus before, after [MAX30101_InitSPO2Lite] the last value
    written to the mode register is [0x03] and after
    [MAX30101_InitMuscleOx] it is [0x07], so reconfiguring switches the
    profile the wire shows. *)
Theorem last_configuration_decides_mode (p : OperatingProfile)
  (drivePower : Z) (b : bus device) :
  last_mode (wire (final (configure p drivePower b)))
    = Some (match p with
            | DualChannelLowPower => 0x03
            | TripleChannelHighPenetration => 0x07
            end)
  /\ active_profile (wire (final (configure p drivePower b))) = Some p.
Proof.
  assert (Hlast : last_mode (wire (final (configure p drivePower b)))
                  = Some (match p with
                          | DualChannelLowPower => 0x03
                          | TripleChannelHighPenetration => 0x07
                          end)).
  { unfold last_mode. destruct p; cbn [configure].
    - rewrite InitSPO2Lite_run. cbn [final wire].
      rewrite omap_app, last_app. reflexivity.
    - rewrite InitMuscleOx_run. cbn [final wire].
      rewrite omap_app, last_app. reflexivity. }
  split; [exact Hlast|].
  unfold active_profile. fold (last_mode (wire (final (configure p drivePower b)))).
  rewrite Hlast. destruct p; reflexivity.
Qed.

(** X14.  Neither configuration operation reads from the device, and
    neither writes a register twice.  [MAX30101_InitSPO2Lite] writes the
    eight registers FIFO_CONFIG, MODE_CONFIG, SPO2_CONFIG, FIFO_READPTR,
    FIFO_WRITPTR, LED1_PAMPLI, LED2_PAMPLI and DIE_TEMPCFG, in this
    order; [MAX30101_InitMuscleOx] writes the same with LED3_PAMPLI
    after LED2_PAMPLI.  The multi-LED slot registers and the interrupt
    enable registers are never written. *)
Theorem configuration_writes_each_register_once (ledPower : Z) (b : bus device) :
  let spo2 := emitted MAX30101_InitSPO2Lite b in
  let nirs := emitted (MAX30101_InitMuscleOx ledPower) b in
  (existsb is_read spo2 = false /\ existsb is_read nirs = false)
  /\ omap written_register spo2 =
     [FIFO_CONFIG; MODE_CONFIG; SPO2_CONFIG; FIFO_READPTR; FIFO_WRITPTR;
      LED1_PAMPLI; LED2_PAMPLI; DIE_TEMPCFG]
  /\ omap written_register nirs =
     [FIFO_CONFIG; MODE_CONFIG; SPO2_CONFIG; FIFO_READPTR; FIFO_WRITPTR;
      LED1_PAMPLI; LED2_PAMPLI; LED3_PAMPLI; DIE_TEMPCFG]
  /\ NoDup (omap written_register spo2)
  /\ NoDup (omap written_register nirs)
  /\ (forall addr : Z,
        In addr [MLED_CONFG1; MLED_CONFG2; INTR_ENABLE1; INTR_ENABLE2] ->
        ~ In addr (omap written_register spo2)
        /\ ~ In addr (omap written_register nirs)).
Proof.
  cbv zeta.
  destruct (emitted_InitSPO2Lite b) as [_ ->].
  destruct (emitted_InitMuscleOx ledPower b) as [_ ->].
  split; [repeat split|].
  split; [reflexivity|]. split; [reflexivity|].
  cbn [omap list_omap written_register].
  split; [|split].
  - apply NoDup_ListNoDup. repeat (constructor; [cbn; intuition discriminate|]).
    constructor.
  - apply NoDup_ListNoDup. repeat (constructor; [cbn; intuition discriminate|]).
    constructor.
  - intros addr Haddr. cbn in Haddr.
    split; intros Hin; cbn in Hin;
      intuition (subst; discriminate).
Qed.

End Profiles.

(** *** These properties at concrete inputs *)

Lemma bench_keeps_registers : register_file bench.
Proof.
  unfold register_file. cbn [slave_read slave_write bench_slave].
  split; [|split].
  - intros a d Ha. apply Z.eqb_neq in Ha. rewrite Ha. reflexivity.
  - intros a v d Ha. apply Z.eqb_neq in Ha. rewrite Ha.
    cbn [fst regs reg_lookup]. rewrite Z.eqb_refl. reflexivity.
  - intros a a' v d Hne Ha. apply Z.eqb_neq in Ha. rewrite Ha.
    cbn [fst regs reg_lookup].
    assert (Hne' : a' <> a) by congruence.
    apply Z.eqb_neq in Hne'. rewrite Hne'. reflexivity.
Qed.

Lemma toggling_twice_from_reset :
  is_uint32 (GPIOB_ODR globals0)
  /\ LED_Toggle (LED_Toggle globals0) = globals0.
Proof.
  assert (H : is_uint32 (GPIOB_ODR globals0)) by (cbn; unfold is_uint32; lia).
  split; [exact H|]. apply (LED_Toggle_flips_bit_3 globals0 H).
Defined.

Lemma toggling_a_lit_LED :
  is_uint32 (GPIOB_ODR globals0)
  /\ LED_Toggle (LED_On globals0) = LED_Off globals0.
Proof.
  assert (H : is_uint32 (GPIOB_ODR globals0)) by (cbn; unfold is_uint32; lia).
  split; [exact H|]. apply (LED_On_Off_bit_3 globals0 H).
Defined.

Lemma period_with_two_samples :
  let b := bench_bus 2 0 (map Z.of_nat (seq 1 12)) in
  let b1 := mkBus (dev b) [BusRead SENSOR_ADDR FIFO_WRITPTR 1;
                           BusRead SENSOR_ADDR FIFO_READPTR 1] in
  (MAX30101_GetNumAvailableSamples b = Done 2 b1
   /\ 2 <= Z.of_nat (length (MAX30101_SampleCurrentBuffer globals0)))
  /\ completes (SysTick_Handler globals0 b) = true.
Proof.
  cbv zeta.
  assert (Hget : MAX30101_GetNumAvailableSamples
                   (bench_bus 2 0 (map Z.of_nat (seq 1 12)))
                 = Done 2 (mkBus (dev (bench_bus 2 0 (map Z.of_nat (seq 1 12))))
                                 [BusRead SENSOR_ADDR FIFO_WRITPTR 1;
                                  BusRead SENSOR_ADDR FIFO_READPTR 1]))
    by reflexivity.
  assert (Hfit : 2 <= Z.of_nat (length (MAX30101_SampleCurrentBuffer globals0)))
    by (cbn; lia).
  split; [split; assumption|].
  destruct (SysTick_Handler_period globals0 _ _ 2 Hget Hfit)
    as [buf [b2 [Hrun _]]].
  rewrite Hrun. reflexivity.
Defined.

Lemma larger_counts_larger_currents :
  let s1 := mkSampleData 1 2 3 in
  let s2 := mkSampleData 2 3 4 in
  (is_uint16 1 /\ is_uint16 2 /\ is_uint16 3 /\ is_uint16 4)
  /\ finite_lt (red_nA (MAX30101_ConvertUint16ToCurrent s1))
               (red_nA (MAX30101_ConvertUint16ToCurrent s2)).
Proof.
  cbv zeta.
  assert (H : is_uint16 1 /\ is_uint16 2 /\ is_uint16 3 /\ is_uint16 4)
    by (unfold is_uint16; lia).
  split; [exact H|]. destruct H as (H1 & H2 & H3 & H4).
  apply (ConvertUint16ToCurrent_strictly_increasing
           (mkSampleData 1 2 3) (mkSampleData 2 3 4) H1 H2 H3 H2 H3 H4).
  cbn. lia.
Defined.

Lemma full_count_stays_below_512 :
  let s := mkSampleData 0 65535 4660 in
  (is_uint16 0 /\ is_uint16 65535 /\ is_uint16 4660)
  /\ finite_within 0 512 (ir_nA (MAX30101_ConvertUint16ToCurrent s)).
Proof.
  cbv zeta.
  assert (H : is_uint16 0 /\ is_uint16 65535 /\ is_uint16 4660)
    by (unfold is_uint16; lia).
  split; [exact H|]. destruct H as (H1 & H2 & H3).
  apply (ConvertUint16ToCurrent_below_512 (mkSampleData 0 65535 4660) H1 H2 H3).
Defined.

Lemma second_raw_sample_of_two :
  let raw := replicate 8 zero_sample in
  let b := bench_bus 2 0 (map Z.of_nat (seq 1 12)) in
  (0 <= 2 <= 255 /\ 2 <= Z.of_nat (length raw))
  /\ exists (raw' : list MAX30101_Sample) (b' : bus bench),
       MAX30101_ReadFIFO raw 2 b = Done raw' b'
       /\ raw' !! 1%nat = Some (mkSample (7, 8) (9, 10) (11, 12)).
Proof.
  cbv zeta.
  assert (Hn : 0 <= 2 <= 255) by lia.
  assert (Hfit : 2 <= Z.of_nat (length (replicate 8 zero_sample)))
    by (cbn; lia).
  split; [split; assumption|].
  destruct (ReadFIFO_stores_the_stream (replicate 8 zero_sample) 2
              (bench_bus 2 0 (map Z.of_nat (seq 1 12))) Hn Hfit)
    as [raw' [b' [Hrun [_ Hentries]]]].
  exists raw', b'. split; [exact Hrun|].
  apply (Hentries 1%nat). cbn. lia.
Defined.

Lemma second_current_sample_of_two :
  let samples := replicate 8 zero_current in
  let b := bench_bus 2 0 (map Z.of_nat (seq 1 12)) in
  (0 <= 2 <= 255 /\ 2 <= Z.of_nat (length samples))
  /\ exists (samples' : list MAX30101_SampleCurrent) (b' : bus bench),
       MAX30101_ReadFIFO_Current samples 2 b = Done samples' b'
       /\ samples' !! 1%nat =
          Some (mkSampleCurrent (scaled 7 8) (scaled 9 10) (scaled 11 12)).
Proof.
  cbv zeta.
  assert (Hn : 0 <= 2 <= 255) by lia.
  assert (Hfit : 2 <= Z.of_nat (length (replicate 8 zero_current)))
    by (cbn; lia).
  split; [split; assumption|].
  destruct (ReadFIFO_Current_stores_scaled_stream (replicate 8 zero_current) 2
              (bench_bus 2 0 (map Z.of_nat (seq 1 12))) Hn Hfit)
    as [samples' [b' [Hrun [_ Hentries]]]].
  exists samples', b'. split; [exact Hrun|].
  destruct (Hentries 1%nat ltac:(cbn; lia)) as [s [Hs [-> _]]].
  exact Hs.
Defined.

